(** * Task manager API (src/app11.js): the Express routes over the Mongoose
      [Task] model, and the properties of the specification checked on them.

    The development follows the backend half of [src/app11.js]:
    - [TaskSchema] (lines 25-31) fixes the paths of a Task document, which of
      them is required and which have defaults;
    - [connectDB] (lines 16-22) is the lazy shared connection;
    - the four route handlers (lines 41-64) are written in a small
      state-and-rejection monad [Async], one bind per [await].

    The handlers call into Mongoose ([new Task], [save], [find],
    [findByIdAndUpdate], [findByIdAndDelete]).  Those calls are modelled on an
    explicit collection held in the [World], with the behaviour Mongoose has
    for the schema and the options that the source passes.

    What arrives at a route is a string for [:id] and JSON for the body;
    the [app_*] functions put Mongoose's casts in front of the routes, so
    that a malformed id, a value that does not cast and an [_id] given by
    the body take the paths they take in the code.

    The client half (the [App] component, lines 78-141) is modelled on top of
    the routes: its two state cells, [fetchTasks], [handleChange],
    [handleSubmit], [handleEdit] and [handleDelete], each awaited axios call
    being a request to the route it names. *)

From Stdlib Require Import ZArith NArith.
From stdpp Require Import base tactics option list strings.

Local Open Scope N_scope.

(** ** Data model *)

(** An [ObjectId] is opaque; the generator hands them out in sequence. *)
Definition ObjectId := N.

(** A JavaScript [Date], as milliseconds since the epoch. *)
Definition Date := Z.

(** A Task document, one field per path of [TaskSchema] plus the [_id] that
    Mongoose adds.  [title], [description] and [dueDate] have no default and
    may be absent from a document; [isCompleted] and [createdAt] have one and
    are therefore always present once the document is constructed. *)
Record TaskDoc := mkTask {
  _id : ObjectId;
  title : option string;
  description : option string;
  dueDate : option Date;
  isCompleted : bool;
  createdAt : Date
}.

(** A request body ([req.body]) after [bodyParser.json()] and the schema's
    casting: any subset of the paths declared in [TaskSchema].  [None] means
    that the body does not name the path. *)
Record Body := mkBody {
  body_title : option string;
  body_description : option string;
  body_dueDate : option Date;
  body_isCompleted : option bool;
  body_createdAt : option Date
}.

(** The empty body, [{}]. *)
Definition empty_body : Body := mkBody None None None None None.

(** The body [{title: x}]. *)
Definition title_body (x : string) : Body :=
  mkBody (Some x) None None None None.

(** Failures of the store, in the taxonomy of the specification.  No call
    made by the handlers raises [NotFoundError]: Mongoose answers a missing
    id with [null].  Two failures that the specification does not name are
    added: the [CastError] of a query whose id or values do not cast, and
    the duplicate-key error of the unique index on [_id]. *)
Inductive StoreError :=
| ValidationError
| NotFoundError
| StoreUnavailable
| CastError
| DuplicateKey.

(** What [res.json(..)] / [res.send()] put in the response. *)
Inductive ResBody :=
| JsonTask (d : TaskDoc)
| JsonTasks (l : list TaskDoc)
| JsonNull
| NoBody
| Unstructured.

Record Response := mkResponse { status : nat; resBody : ResBody }.

(** [res.status(c).json(v)] and [res.status(c).send()]. *)
Definition res_json (c : nat) (v : ResBody) : Response := mkResponse c v.
Definition res_send (c : nat) : Response := mkResponse c NoBody.

(** A response body that is a Task record. *)
Definition is_task (b : ResBody) : bool :=
  match b with JsonTask _ => true | _ => false end.

(** ** The world a request runs in *)

Record World := mkWorld {
  readyState : nat;        (* mongoose.connection.readyState *)
  reachable : bool;        (* does the MongoDB server answer *)
  now : Date;              (* what Date.now() returns *)
  nextId : ObjectId;       (* the ObjectId generator *)
  tasks : list TaskDoc     (* the Task collection, in natural order *)
}.

Definition set_readyState (n : nat) (w : World) : World :=
  mkWorld n (reachable w) (now w) (nextId w) (tasks w).
Definition set_nextId (i : ObjectId) (w : World) : World :=
  mkWorld (readyState w) (reachable w) (now w) i (tasks w).
Definition set_tasks (l : list TaskDoc) (w : World) : World :=
  mkWorld (readyState w) (reachable w) (now w) (nextId w) l.

(** The clock moving between two requests. *)
Definition set_now (t : Date) (w : World) : World :=
  mkWorld (readyState w) (reachable w) t (nextId w) (tasks w).

(** ** Asynchronous computations: state passing with rejection *)

Inductive Result (A : Type) :=
| Resolved (a : A)
| Rejected (e : StoreError).
Arguments Resolved {A} a.
Arguments Rejected {A} e.

Definition Async (A : Type) : Type := World -> Result A * World.

Definition resolve {A} (a : A) : Async A := fun w => (Resolved a, w).
Definition reject {A} (e : StoreError) : Async A := fun w => (Rejected e, w).

(** [await m] followed by the rest of the function body: a rejection of [m]
    ends the function, since no handler has a [try]/[catch]. *)
Definition await {A B} (m : Async A) (k : A -> Async B) : Async B :=
  fun w =>
    match m w with
    | (Resolved a, w') => k a w'
    | (Rejected e, w') => (Rejected e, w')
    end.

Notation "'let*' x ':=' m 'in' k" := (await m (fun x => k))
  (at level 10, x name, m at level 100, k at level 200).
Notation "m ';;;' k" := (await m (fun _ => k))
  (at level 100, k at level 200, right associativity).

Definition get_world : Async World := fun w => (Resolved w, w).
Definition put_world (w' : World) : Async unit := fun _ => (Resolved tt, w').

(** A round trip to the server: rejects when the server does not answer,
    and the connection is then down ([readyState] 0). *)
Definition server_call : Async unit :=
  fun w =>
    if reachable w then (Resolved tt, w)
    else (Rejected StoreUnavailable, set_readyState 0 w).

(** ** MongoDB connection (lines 16-22) *)

(** [mongoose.connect(uri, opts)]: on success the connection is connected
    ([readyState] 1). *)
Definition mongoose_connect : Async unit :=
  server_call ;;;
  let* w := get_world in
  put_world (set_readyState 1 w).

Definition connectDB : Async unit :=
  let* w := get_world in
  if (1 <=? readyState w)%nat then resolve tt
  else mongoose_connect.

(** ** The Task model (lines 25-33) *)

(** [new Task(body)]: the paths named by the body, the schema defaults
    ([isCompleted: false], [createdAt: Date.now]) for those it leaves out,
    and a fresh [_id]. *)
Definition Task_new (b : Body) : Async TaskDoc :=
  let* w := get_world in
  put_world (set_nextId (N.succ (nextId w)) w) ;;;
  resolve {| _id := nextId w;
             title := body_title b;
             description := body_description b;
             dueDate := body_dueDate b;
             isCompleted := default false (body_isCompleted b);
             createdAt := default (now w) (body_createdAt b) |}.

(** The [required: true] validator of a String path: the value must be
    present and of non-zero length. *)
Definition required_string (v : option string) : bool :=
  match v with
  | Some s => negb (String.length s =? 0)%nat
  | None => false
  end.

(** Document validation against [TaskSchema]: [title] is the only
    constrained path. *)
Definition validate (d : TaskDoc) : bool := required_string (title d).

(** [doc.save()] of a new document: validate, then insert. *)
Definition save (d : TaskDoc) : Async unit :=
  if validate d then
    server_call ;;;
    let* w := get_world in
    put_world (set_tasks (tasks w ++ [d]) w)
  else reject ValidationError.

(** [Task.find()]: every document of the collection. *)
Definition Task_find : Async (list TaskDoc) :=
  server_call ;;;
  let* w := get_world in
  resolve (tasks w).

(** The document with a given [_id], if any. *)
Definition findById (id : ObjectId) (l : list TaskDoc) : option TaskDoc :=
  List.find (fun d => _id d =? id) l.

(** The update document [req.body] is applied as a [$set] of the paths it
    names. *)
Definition apply_update (b : Body) (d : TaskDoc) : TaskDoc :=
  {| _id := _id d;
     title := match body_title b with Some x => Some x | None => title d end;
     description :=
       match body_description b with Some x => Some x | None => description d end;
     dueDate := match body_dueDate b with Some x => Some x | None => dueDate d end;
     isCompleted := default (isCompleted d) (body_isCompleted b);
     createdAt := default (createdAt d) (body_createdAt b) |}.

(** Replace the first document with the given [_id]. *)
Fixpoint update_first (id : ObjectId) (f : TaskDoc -> TaskDoc)
    (l : list TaskDoc) : list TaskDoc :=
  match l with
  | [] => []
  | d :: l' => if _id d =? id then f d :: l' else d :: update_first id f l'
  end.

(** Remove the first document with the given [_id]. *)
Fixpoint remove_first (id : ObjectId) (l : list TaskDoc) : list TaskDoc :=
  match l with
  | [] => []
  | d :: l' => if _id d =? id then l' else d :: remove_first id l'
  end.

(** [Task.findByIdAndUpdate(id, body, { new: true })]: update validators are
    off unless [runValidators] is passed, which the source does not do; the
    result is the document after the update, or [null] when no document has
    that id. *)
Definition findByIdAndUpdate (id : ObjectId) (b : Body)
    : Async (option TaskDoc) :=
  server_call ;;;
  let* w := get_world in
  match findById id (tasks w) with
  | Some d =>
      put_world (set_tasks (update_first id (apply_update b) (tasks w)) w) ;;;
      resolve (Some (apply_update b d))
  | None => resolve None
  end.

(** [Task.findByIdAndDelete(id)]: the removed document, or [null]. *)
Definition findByIdAndDelete (id : ObjectId) : Async (option TaskDoc) :=
  server_call ;;;
  let* w := get_world in
  match findById id (tasks w) with
  | Some d =>
      put_world (set_tasks (remove_first id (tasks w)) w) ;;;
      resolve (Some d)
  | None => resolve None
  end.

(** [res.json(doc)] of a query result that may be [null]. *)
Definition json_of (o : option TaskDoc) : ResBody :=
  match o with Some d => JsonTask d | None => JsonNull end.

(** ** API routes (lines 41-64) *)

Definition post_api_tasks (body : Body) : Async Response :=
  connectDB ;;;
  let* newTask := Task_new body in
  save newTask ;;;
  resolve (res_json 201 (JsonTask newTask)).

Definition get_api_tasks : Async Response :=
  connectDB ;;;
  let* tasks := Task_find in
  resolve (res_json 200 (JsonTasks tasks)).

Definition put_api_tasks (id : ObjectId) (body : Body) : Async Response :=
  connectDB ;;;
  let* updatedTask := findByIdAndUpdate id body in
  resolve (res_json 200 (json_of updatedTask)).

Definition delete_api_tasks (id : ObjectId) : Async Response :=
  connectDB ;;;
  findByIdAndDelete id ;;;
  resolve (res_send 204).

(** A request to one of the four routes; the [:id] parameter is a
    well-formed ObjectId. *)
Inductive Request :=
| POST (body : Body)
| GET
| PUT (id : ObjectId) (body : Body)
| DELETE (id : ObjectId).

Definition route (r : Request) : Async Response :=
  match r with
  | POST body => post_api_tasks body
  | GET => get_api_tasks
  | PUT id body => put_api_tasks id body
  | DELETE id => delete_api_tasks id
  end.

(** The store operation that a route awaits after [connectDB], with its
    result forgotten. *)
Definition store_op (r : Request) : Async unit :=
  match r with
  | POST body => let* newTask := Task_new body in save newTask
  | GET => Task_find ;;; resolve tt
  | PUT id body => findByIdAndUpdate id body ;;; resolve tt
  | DELETE id => findByIdAndDelete id ;;; resolve tt
  end.

(** Modelled from the spec: what the service answers when a handler's
    promise rejects is decided by Express, which is not part of the source.
    Section 7 of the specification: any unhandled failure during request
    processing results in an unstructured 500 response. *)
Definition unhandled_failure (e : StoreError) : Response :=
  mkResponse 500 Unstructured.

(** The service: run the handler; a rejection is an unhandled failure. *)
Definition serve (r : Request) (w : World) : Response * World :=
  match route r w with
  | (Resolved res, w') => (res, w')
  | (Rejected e, w') => (unhandled_failure e, w')
  end.

(** ** Derived notions used in the statements *)

(** The world after a successful [connectDB]. *)
Definition connected (w : World) : World :=
  if (1 <=? readyState w)%nat then w else set_readyState 1 w.

(** Every stored Task passes the schema's validation. *)
Definition titles_valid (w : World) : Prop :=
  Forall (fun d => validate d = true) (tasks w).

(** The ids of the stored Tasks are pairwise distinct, and the generator is
    ahead of all of them. *)
Definition ids_fresh (w : World) : Prop :=
  NoDup (_id <$> tasks w) /\ Forall (fun d => _id d < nextId w) (tasks w).

(** A store operation fails with [e] while [r] is processed: [connectDB]
    rejects with [e], or it resolves and the store call of the route rejects
    with [e]. *)
Definition store_fails (r : Request) (w : World) (e : StoreError) : Prop :=
  fst (connectDB w) = Rejected e \/
  exists w1, connectDB w = (Resolved tt, w1) /\ fst (store_op r w1) = Rejected e.

(** ** Requests as they arrive: the casts *)

(** The routes above take an id and a body that Mongoose has already cast.
    What arrives is a string for [:id] and JSON for the body, and a cast can
    fail.  The handlers of lines 41-64 are the [app_*] functions below; on an
    [:id] and a body that cast they are the [*_api_tasks] functions. *)

(** The value of a hexadecimal digit, in either case. *)
Definition hex_digit (c : Ascii.ascii) : option N :=
  let n := Ascii.N_of_ascii c in
  if (48 <=? n) && (n <=? 57) then Some (n - 48)
  else if (97 <=? n) && (n <=? 102) then Some (n - 87)
  else if (65 <=? n) && (n <=? 70) then Some (n - 55)
  else None.

Fixpoint hex_value (s : string) (acc : N) : option N :=
  match s with
  | EmptyString => Some acc
  | String c s' =>
      match hex_digit c with
      | Some d => hex_value s' (16 * acc + d)
      | None => None
      end
  end.

(** The cast of [req.params.id] to an ObjectId: a string of 24 hexadecimal
    digits, in either case; any other string fails the cast (as in Mongoose
    from version 7 on; earlier versions also took a string of 12
    characters). *)
Definition castObjectId (s : string) : option ObjectId :=
  if (String.length s =? 24)%nat then hex_value s 0 else None.

(** What a body gives for one path, seen through the cast of the path's
    type: nothing, a value that casts to [v], or a value that the type
    rejects.  JSON [null] and keys that are not paths of the schema (the
    update operators among them) are not represented. *)
Inductive Given (A : Type) :=
| Absent
| Casts (v : A)
| Uncastable.
Arguments Absent {A}.
Arguments Casts {A} v.
Arguments Uncastable {A}.

Definition given_value {A} (g : Given A) : option A :=
  match g with Casts v => Some v | _ => None end.

Definition uncastable {A} (g : Given A) : bool :=
  match g with Uncastable => true | _ => false end.

(** [req.body] over the five paths of [TaskSchema]. *)
Record RawBody := mkRaw {
  raw_title : Given string;
  raw_description : Given string;
  raw_dueDate : Given Date;
  raw_isCompleted : Given bool;
  raw_createdAt : Given Date
}.

(** Some value of the body does not cast. *)
Definition cast_fails (r : RawBody) : bool :=
  uncastable (raw_title r) || uncastable (raw_description r) ||
  uncastable (raw_dueDate r) || uncastable (raw_isCompleted r) ||
  uncastable (raw_createdAt r).

(** The values that cast. *)
Definition cast_body (r : RawBody) : Body :=
  mkBody (given_value (raw_title r)) (given_value (raw_description r))
         (given_value (raw_dueDate r)) (given_value (raw_isCompleted r))
         (given_value (raw_createdAt r)).

(** A body of values that are already of the types of their paths. *)
Definition raw_of (b : Body) : RawBody :=
  let give {A} (o : option A) : Given A :=
    match o with Some v => Casts v | None => Absent end in
  mkRaw (give (body_title b)) (give (body_description b)) (give (body_dueDate b))
        (give (body_isCompleted b)) (give (body_createdAt b)).

(** A document as [new Task(..)] leaves it: its paths, and whether a cast
    failed while they were set. *)
Record Hydrated := mkHydrated { doc : TaskDoc; castError : bool }.

(** [new Task(req.body)] for a body that may also give [_id]: an [_id]
    that casts is kept, otherwise the document gets a generated one. *)
Definition new_Task (given_id : Given ObjectId) (r : RawBody) : Async Hydrated :=
  match given_id with
  | Casts i =>
      let* w := get_world in
      resolve (mkHydrated
        {| _id := i;
           title := body_title (cast_body r);
           description := body_description (cast_body r);
           dueDate := body_dueDate (cast_body r);
           isCompleted := default false (body_isCompleted (cast_body r));
           createdAt := default (now w) (body_createdAt (cast_body r)) |}
        (cast_fails r))
  | _ =>
      let* d := Task_new (cast_body r) in
      resolve (mkHydrated d (cast_fails r || uncastable given_id))
  end.

(** [newTask.save()]: validation fails on a recorded cast error or on a
    missing or empty title; the insert fails when the collection already has
    a document with that [_id]. *)
Definition Document_save (h : Hydrated) : Async unit :=
  if castError h then reject ValidationError
  else if validate (doc h) then
    server_call ;;;
    let* w := get_world in
    match findById (_id (doc h)) (tasks w) with
    | Some _ => reject DuplicateKey
    | None => put_world (set_tasks (tasks w ++ [doc h]) w)
    end
  else reject ValidationError.

(** [app.post('/api/tasks', ..)] (lines 41-46). *)
Definition app_post (given_id : Given ObjectId) (body : RawBody) : Async Response :=
  connectDB ;;;
  let* newTask := new_Task given_id body in
  Document_save newTask ;;;
  resolve (res_json 201 (JsonTask (doc newTask))).

(** [Task.findByIdAndUpdate(req.params.id, req.body, { new: true })]: the
    id and the update are cast before the query is sent. *)
Definition Task_findByIdAndUpdate (id : string) (body : RawBody)
    : Async (option TaskDoc) :=
  match castObjectId id with
  | None => reject CastError
  | Some i =>
      if cast_fails body then reject CastError
      else findByIdAndUpdate i (cast_body body)
  end.

(** [app.put('/api/tasks/:id', ..)] (lines 54-58). *)
Definition app_put (id : string) (body : RawBody) : Async Response :=
  connectDB ;;;
  let* updatedTask := Task_findByIdAndUpdate id body in
  resolve (res_json 200 (json_of updatedTask)).

(** [Task.findByIdAndDelete(req.params.id)]. *)
Definition Task_findByIdAndDelete (id : string) : Async (option TaskDoc) :=
  match castObjectId id with
  | None => reject CastError
  | Some i => findByIdAndDelete i
  end.

(** [app.delete('/api/tasks/:id', ..)] (lines 60-64). *)
Definition app_delete (id : string) : Async Response :=
  connectDB ;;;
  Task_findByIdAndDelete id ;;;
  resolve (res_send 204).

(** A request as it arrives. *)
Inductive RawRequest :=
| RawPOST (given_id : Given ObjectId) (body : RawBody)
| RawGET
| RawPUT (id : string) (body : RawBody)
| RawDELETE (id : string).

Definition app (r : RawRequest) : Async Response :=
  match r with
  | RawPOST given_id body => app_post given_id body
  | RawGET => get_api_tasks
  | RawPUT id body => app_put id body
  | RawDELETE id => app_delete id
  end.

(** ** The service over time *)

(** The server becoming reachable or unreachable. *)
Definition set_reachable (up : bool) (w : World) : World :=
  mkWorld (readyState w) up (now w) (nextId w) (tasks w).

(** What happens to the world between and during requests: a request is
    handled, the clock moves, or the network changes. *)
Inductive Event :=
| Req (r : Request)
| Tick (t : Date)
| Net (up : bool).

Definition step (ev : Event) (w : World) : World :=
  match ev with
  | Req r => snd (route r w)
  | Tick t => set_now t w
  | Net up => set_reachable up w
  end.

Definition run (evs : list Event) (w : World) : World :=
  foldl (fun w ev => step ev w) w evs.

(** A request that writes an empty title: a PUT whose body names [title]
    with the empty string. *)
Definition puts_empty_title (ev : Event) : bool :=
  match ev with
  | Req (PUT _ b) =>
      match body_title b with
      | Some s => (String.length s =? 0)%nat
      | None => false
      end
  | _ => false
  end.

(** ** Client UI (lines 78-141) *)

(** [formData]: the values of the three inputs of the form.  A date input
    holds either nothing or a valid date; its value is kept as the [Date]
    that the schema casts it to, with [None] for the empty string. *)
Record FormData := mkForm {
  form_title : string;
  form_description : string;
  form_dueDate : option Date
}.

(** [{ title: '', description: '', dueDate: '' }] *)
Definition blank_form : FormData := mkForm "" "" None.

(** The two [useState] cells of [App]: [tasks] holds whatever the last
    successful fetch returned, [formData] the form. *)
Record UI := mkUI { ui_tasks : ResBody; formData : FormData }.

Definition initial_UI : UI := mkUI (JsonTasks []) blank_form.

Definition setTasks (data : ResBody) (ui : UI) : UI := mkUI data (formData ui).
Definition setFormData (f : FormData) (ui : UI) : UI := mkUI (ui_tasks ui) f.

(** The body that [axios.post('/api/tasks', formData)] carries, as the
    schema casts it: the three form values, and no other path. *)
Definition form_body (f : FormData) : Body :=
  mkBody (Some (form_title f)) (Some (form_description f)) (form_dueDate f)
         None None.

(** The fixed payload of [handleEdit] (lines 103-107); the date string
    '2025-02-04' casts to midnight UTC of that day. *)
Definition updatedTask : Body :=
  mkBody (Some "Updated Title"%string) (Some "Updated Description"%string)
         (Some 1738627200000%Z) None None.

(** An awaited axios call: it yields the response data when the handler
    answers with a 2xx status; otherwise the promise does not resolve to a
    value and the rest of the caller is not run ([None]). *)
Definition axios (r : Request) (w : World) : option ResBody * World :=
  match route r w with
  | (Resolved res, w') =>
      if (200 <=? status res)%nat && (status res <? 300)%nat
      then (Some (resBody res), w')
      else (None, w')
  | (Rejected _, w') => (None, w')
  end.

Definition fetchTasks (ui : UI) (w : World) : UI * World :=
  match axios GET w with
  | (Some data, w') => (setTasks data ui, w')
  | (None, w') => (ui, w')
  end.

(** A change event of one of the three inputs ([e.target.name],
    [e.target.value]). *)
Inductive Change :=
| ChangeTitle (v : string)
| ChangeDescription (v : string)
| ChangeDueDate (v : option Date).

Definition handleChange (e : Change) (ui : UI) : UI :=
  let f := formData ui in
  setFormData
    match e with
    | ChangeTitle v => mkForm v (form_description f) (form_dueDate f)
    | ChangeDescription v => mkForm (form_title f) v (form_dueDate f)
    | ChangeDueDate v => mkForm (form_title f) (form_description f) v
    end ui.

(** [handleSubmit]: the create request, then the refetch (not awaited, so
    the form is cleared whether or not it succeeds). *)
Definition handleSubmit (ui : UI) (w : World) : UI * World :=
  match axios (POST (form_body (formData ui))) w with
  | (Some _, w') =>
      let '(ui', w'') := fetchTasks ui w' in
      (setFormData blank_form ui', w'')
  | (None, w') => (ui, w')
  end.

Definition handleEdit (id : ObjectId) (ui : UI) (w : World) : UI * World :=
  match axios (PUT id updatedTask) w with
  | (Some _, w') => fetchTasks ui w'
  | (None, w') => (ui, w')
  end.

Definition handleDelete (id : ObjectId) (ui : UI) (w : World) : UI * World :=
  match axios (DELETE id) w with
  | (Some _, w') => fetchTasks ui w'
  | (None, w') => (ui, w')
  end.

(** What the user can do: load the page ([useEffect]), type in the form,
    submit it, or click Edit or Delete on a listed task. *)
Inductive Action :=
| Load
| Type_ (e : Change)
| Submit
| Edit (id : ObjectId)
| Delete (id : ObjectId).

Definition act (a : Action) (ui : UI) (w : World) : UI * World :=
  match a with
  | Load => fetchTasks ui w
  | Type_ e => (handleChange e ui, w)
  | Submit => handleSubmit ui w
  | Edit id => handleEdit id ui w
  | Delete id => handleDelete id ui w
  end.

(** A session: user actions one after the other, each run to its end. *)
Definition session (acts : list Action) (ui : UI) (w : World) : UI * World :=
  foldl (fun s a => act a (fst s) (snd s)) (ui, w) acts.

(** The requests that the client can send: the refetch, the form, the fixed
    edit payload, a delete. *)
Definition from_ui (r : Request) : Prop :=
  match r with
  | POST b => exists f, b = form_body f
  | GET => True
  | PUT _ b => b = updatedTask
  | DELETE _ => True
  end.

(** No stored Task is completed. *)
Definition none_completed (w : World) : Prop :=
  Forall (fun d => isCompleted d = false) (tasks w).

(** The [key]s of the rows that [App] renders (lines 129-130), one per
    listed task; [tasks.map] needs [tasks] to be an array. *)
Definition row_keys (ui : UI) : option (list ObjectId) :=
  match ui_tasks ui with
  | JsonTasks l => Some (_id <$> l)
  | _ => None
  end.

(** ** Running the monad *)

Ltac unfold_async :=
  unfold await, resolve, reject, get_world, put_world, server_call,
    set_readyState, set_nextId, set_tasks, set_now in *.

(** Open a world into its fields and split on whether the connection is
    already up, so that every projection and [connectDB] compute. *)
Ltac open_world w :=
  let rs := fresh "rs" in let rch := fresh "rch" in let t := fresh "t" in
  let n := fresh "n" in let l := fresh "l" in
  destruct w as [rs rch t n l]; destruct rs; simpl in *; subst.

Lemma connectDB_reachable (w : World) :
  reachable w = true -> connectDB w = (Resolved tt, connected w).
Proof.
  intros Hr. open_world w.
  all: unfold connectDB, mongoose_connect, connected; by unfold_async.
Qed.

Lemma connectDB_unreachable (w : World) :
  reachable w = false ->
  connectDB w =
    if (1 <=? readyState w)%nat then (Resolved tt, w)
    else (Rejected StoreUnavailable, w).
Proof.
  intros Hr. open_world w.
  all: unfold connectDB, mongoose_connect; by unfold_async.
Qed.

Lemma required_string_spec (v : option string) :
  required_string v = true <-> exists s, v = Some s /\ s <> ""%string.
Proof.
  unfold required_string. split.
  - destruct v as [[|a s]|]; simpl; try done. intros _. by eexists.
  - intros (s & -> & Hs). by destruct s.
Qed.

(** *** Lookups in the collection *)

Lemma findById_Some_id id l d : findById id l = Some d -> _id d = id.
Proof.
  unfold findById. intros H. apply find_some in H as [_ H].
  by apply N.eqb_eq.
Qed.

Lemma findById_update_first id f l d :
  (forall x, _id (f x) = _id x) ->
  findById id l = Some d ->
  findById id (update_first id f l) = Some (f d).
Proof.
  intros Hf. unfold findById. induction l as [|x l IH]; simpl; [done|].
  destruct (_id x =? id) eqn:E; simpl.
  - intros [= ->]. by rewrite Hf, E.
  - rewrite E. exact IH.
Qed.

Lemma findById_update_first_ne id id' f l :
  (forall x, _id (f x) = _id x) ->
  id' <> id ->
  findById id' (update_first id f l) = findById id' l.
Proof.
  intros Hf Hne. unfold findById. induction l as [|x l IH]; simpl; [done|].
  destruct (_id x =? id) eqn:E; simpl.
  - rewrite Hf. apply N.eqb_eq in E.
    assert ((_id x =? id') = false) as -> by (apply N.eqb_neq; congruence).
    done.
  - by rewrite IH.
Qed.

Lemma update_first_absent id f l :
  findById id l = None -> update_first id f l = l.
Proof.
  unfold findById. induction l as [|x l IH]; simpl; [done|].
  destruct (_id x =? id); [done|]. intros H. by rewrite IH.
Qed.


Lemma remove_first_absent id l :
  findById id l = None -> remove_first id l = l.
Proof.
  unfold findById. induction l as [|x l IH]; simpl; [done|].
  destruct (_id x =? id); [done|]. intros H. by rewrite IH.
Qed.

Lemma apply_update_id b d : _id (apply_update b d) = _id d.
Proof. done. Qed.


Lemma findById_fresh (n : ObjectId) (l : list TaskDoc) :
  Forall (fun d => _id d < n) l -> findById n l = None.
Proof.
  unfold findById. induction 1 as [|x l Hx _ IH]; simpl; [done|].
  assert ((_id x =? n) = false) as -> by (apply N.eqb_neq; lia). done.
Qed.

Ltac run_route :=
  unfold route, post_api_tasks, get_api_tasks, put_api_tasks,
    delete_api_tasks, connectDB, mongoose_connect, Task_new, save, Task_find,
    findByIdAndUpdate, findByIdAndDelete, validate;
  unfold_async; simpl.

(** ** Creation *)

(** C6. A POST whose body has no title, or an empty one, creates nothing:
    the handler rejects, the collection is unchanged, and the failure is the
    store's [ValidationError] (when the server cannot even be reached to
    connect, the failure is [StoreUnavailable] instead). *)
Theorem post_missing_title_rejected (w : World) (b : Body) :
  body_title b = None \/ body_title b = Some ""%string ->
  exists e w',
    post_api_tasks b w = (Rejected e, w') /\
    tasks w' = tasks w /\
    (e = ValidationError \/
     e = StoreUnavailable /\ reachable w = false /\ readyState w = 0%nat) /\
    (reachable w = true -> e = ValidationError).
Proof.
  intros Hb. destruct b as [bt bd bdd bc bca]. simpl in Hb.
  assert (required_string bt = false) as Hv by (by destruct Hb as [-> | ->]).
  open_world w; run_route; rewrite ?Hv.
  all: destruct rch; simpl.
  all: eexists _, _; split; [reflexivity|]; simpl; repeat split; auto; done.
Qed.

Lemma post_missing_title_rejected_witness :
  exists w',
    post_api_tasks empty_body (mkWorld 1 true 0%Z 0 []) = (Rejected ValidationError, w') /\
    tasks w' = [].
Proof.
  destruct (post_missing_title_rejected (mkWorld 1 true 0%Z 0 []) empty_body
              (or_introl eq_refl)) as (e & w' & H1 & H2 & _ & H4).
  exists w'. rewrite <- (H4 eq_refl). split; [exact H1 | exact H2].
Defined.

(** ** Update *)

(** What a PUT does, in one equation: when the server answers, the matching
    document (if any) is updated in place and returned, and a missing id is
    answered 200 with [null]; when it does not answer, the handler rejects
    and the collection is unchanged. *)
Lemma put_api_tasks_eq (w : World) (id : ObjectId) (b : Body) :
  exists w',
    put_api_tasks id b w =
      (if reachable w then
         Resolved (res_json 200 (json_of (apply_update b <$> findById id (tasks w))))
       else Rejected StoreUnavailable, w') /\
    tasks w' =
      if reachable w then update_first id (apply_update b) (tasks w)
      else tasks w.
Proof.
  open_world w; run_route.
  all: destruct rch; simpl; [|by eexists].
  all: destruct (findById id l) eqn:E; simpl; eexists; split; try reflexivity.
  all: simpl; by rewrite ?update_first_absent.
Qed.

(** C2. A PUT with body [{title: X}] on a stored Task sets the title of the
    matching record to X and leaves its description, dueDate, isCompleted,
    createdAt and id as they were; the response is 200 with that record, and
    every other record is untouched. *)
Theorem put_title_changes_only_title (w : World) (id : ObjectId) (x : string)
    (d : TaskDoc) :
  reachable w = true ->
  findById id (tasks w) = Some d ->
  let d' := mkTask (_id d) (Some x) (description d) (dueDate d)
                   (isCompleted d) (createdAt d) in
  exists w',
    put_api_tasks id (title_body x) w = (Resolved (res_json 200 (JsonTask d')), w') /\
    findById id (tasks w') = Some d' /\
    (forall id', id' <> id -> findById id' (tasks w') = findById id' (tasks w)).
Proof.
  intros Hr Hd d'.
  destruct (put_api_tasks_eq w id (title_body x)) as (w' & Heq & Ht).
  rewrite Hr, Hd in Heq. rewrite Hr in Ht. exists w'.
  split; [exact Heq|]. rewrite Ht. split.
  - by rewrite (findById_update_first _ _ _ d).
  - intros id' Hne. by apply findById_update_first_ne.
Qed.

Lemma put_title_changes_only_title_witness :
  exists w',
    put_api_tasks 3 (title_body "X")
      (mkWorld 1 true 50%Z 4
         [mkTask 3 (Some "Buy milk"%string) (Some "2 litres"%string) (Some 90%Z) true 10%Z])
    = (Resolved (res_json 200 (JsonTask
         (mkTask 3 (Some "X"%string) (Some "2 litres"%string) (Some 90%Z) true 10%Z))), w').
Proof.
  destruct (put_title_changes_only_title
              (mkWorld 1 true 50%Z 4
                 [mkTask 3 (Some "Buy milk"%string) (Some "2 litres"%string)
                    (Some 90%Z) true 10%Z])
              3 "X" _ eq_refl eq_refl) as (w' & H & _).
  exists w'. exact H.
Defined.



(** C3 as stated fails: on a reachable store that holds no Task, the store
    reports the absence of id 7 ([findByIdAndUpdate] resolves to [null]) and
    the PUT is answered 200, not 404. *)
Lemma put_absent_id_is_not_404 :
  let w := mkWorld 1 true 0%Z 0 [] in
  findById 7 (tasks w) = None /\
  fst (findByIdAndUpdate 7 (title_body "X") w) = Resolved None /\
  fst (put_api_tasks 7 (title_body "X") w) = Resolved (res_json 200 JsonNull) /\
  status (fst (serve (PUT 7 (title_body "X")) w)) <> 404%nat.
Proof. repeat split; discriminate. Qed.

(** C5 as stated fails: [TaskSchema] does not make [createdAt] immutable, so
    a PUT whose body names [createdAt] replaces the stored value. *)
Lemma put_createdAt_overwrites :
  let d := mkTask 3 (Some "Buy milk"%string) None None false 10%Z in
  let w := mkWorld 1 true 50%Z 4 [d] in
  let w' := snd (put_api_tasks 3 (mkBody None None None None (Some 99%Z)) w) in
  findById 3 (tasks w) = Some d /\
  exists d', findById 3 (tasks w') = Some d' /\
    createdAt d' = 99%Z /\ createdAt d' <> createdAt d.
Proof. split; [reflexivity|]. eexists. repeat split. discriminate. Qed.

(** ** The title invariant *)

(** The create path keeps the invariant: [save] validates before it
    inserts. *)
Lemma post_keeps_titles_valid (w : World) (b : Body) :
  titles_valid w -> titles_valid (snd (post_api_tasks b w)).
Proof.
  unfold titles_valid. intros H. destruct b as [bt bd bdd bc bca].
  open_world w; run_route.
  all: destruct rch; simpl; try done.
  all: destruct (required_string bt) eqn:Hv; simpl; try done.
  all: apply Forall_app; split; [done|]; by apply Forall_singleton.
Qed.

Lemma Forall_remove_first (P : TaskDoc -> Prop) id l :
  Forall P l -> Forall P (remove_first id l).
Proof.
  induction 1 as [|x l Hx Hl IH]; simpl; [done|].
  destruct (_id x =? id); [done|]. by constructor.
Qed.

(** So does the delete path. *)
Lemma delete_keeps_titles_valid (w : World) (id : ObjectId) :
  titles_valid w -> titles_valid (snd (delete_api_tasks id w)).
Proof.
  unfold titles_valid. intros H. open_world w; run_route.
  all: destruct rch; simpl; try done.
  all: destruct (findById id l); simpl; try done.
  all: by apply Forall_remove_first.
Qed.

(** C4, on the update path. [findByIdAndUpdate] is called without
    [runValidators], so the [required] validator of [title] is not run: on a
    store whose only Task has the title "Buy milk", a PUT with body
    [{title: ""}] is answered 200 and leaves that Task stored with an empty
    title. *)
Theorem put_empty_title_is_stored :
  let d := mkTask 3 (Some "Buy milk"%string) None None false 10%Z in
  let d' := mkTask 3 (Some ""%string) None None false 10%Z in
  let w := mkWorld 1 true 50%Z 4 [d] in
  titles_valid w /\
  put_api_tasks 3 (title_body "") w
    = (Resolved (res_json 200 (JsonTask d')), set_tasks [d'] w) /\
  validate d' = false /\
  ~ titles_valid (snd (put_api_tasks 3 (title_body "") w)).
Proof.
  repeat split.
  - by apply Forall_singleton.
  - intros H. unfold titles_valid in H. cbn in H.
    apply Forall_inv in H. discriminate H.
Qed.

(** ** Identifiers *)

Lemma ids_update_first id f l :
  (forall x, _id (f x) = _id x) ->
  _id <$> update_first id f l = _id <$> l.
Proof.
  intros Hf. induction l as [|x l IH]; csimpl; [done|].
  destruct (_id x =? id); csimpl; by rewrite ?Hf, ?IH.
Qed.

Lemma Forall_update_first (P : TaskDoc -> Prop) id f l :
  (forall x, P x -> P (f x)) -> Forall P l -> Forall P (update_first id f l).
Proof.
  intros Hf. induction 1 as [|x l Hx Hl IH]; csimpl; [done|].
  destruct (_id x =? id); constructor; auto.
Qed.

Lemma ids_remove_first id l i :
  i ∈ _id <$> remove_first id l -> i ∈ _id <$> l.
Proof.
  induction l as [|x l IH]; csimpl; [done|].
  destruct (_id x =? id); csimpl; rewrite ?elem_of_cons; intuition.
Qed.

Lemma NoDup_remove_first id l :
  NoDup (_id <$> l) -> NoDup (_id <$> remove_first id l).
Proof.
  induction l as [|x l IH]; csimpl; [done|].
  rewrite NoDup_cons. intros [Hx Hl].
  destruct (_id x =? id); csimpl; [done|].
  apply NoDup_cons. split; [|by apply IH].
  intros Hin. by apply Hx, (ids_remove_first id).
Qed.

Lemma findById_None id l : id ∉ _id <$> l -> findById id l = None.
Proof.
  unfold findById. induction l as [|x l IH]; csimpl; [done|].
  rewrite not_elem_of_cons. intros [Hne Hl].
  assert ((_id x =? id) = false) as -> by (apply N.eqb_neq; congruence).
  by apply IH.
Qed.

(** With distinct ids, removing a Task leaves no Task under its id. *)
Lemma findById_remove_first id l :
  NoDup (_id <$> l) -> findById id (remove_first id l) = None.
Proof.
  induction l as [|x l IH]; csimpl; [done|].
  rewrite NoDup_cons. intros [Hx Hl].
  destruct (_id x =? id) eqn:E.
  - apply N.eqb_eq in E. subst id. by apply findById_None.
  - unfold findById in *. csimpl. rewrite E. by apply IH.
Qed.

(** Every route keeps the ids distinct and below the generator. *)
Lemma route_keeps_ids_fresh (r : Request) (w : World) :
  ids_fresh w -> ids_fresh (snd (route r w)).
Proof.
  unfold ids_fresh. intros [Hnd Hlt]. destruct r as [b| |id b|id].
  - destruct b as [bt bd bdd bc bca]. open_world w; run_route.
    all: destruct rch; csimpl; try done.
    all: destruct (required_string bt); csimpl.
    all: try (split; [done | eapply Forall_impl; [exact Hlt | csimpl; intros; lia]]).
    all: rewrite fmap_app; csimpl; split.
    all: try (apply Forall_app; split;
              [eapply Forall_impl; [exact Hlt | csimpl; intros; lia]
              | apply Forall_singleton; csimpl; lia]).
    all: apply NoDup_app; split; [done|]; split; [|apply NoDup_singleton].
    all: intros i Hi ->%list_elem_of_singleton.
    all: apply list_elem_of_fmap in Hi as (d & Hd & Hin).
    all: rewrite Forall_forall in Hlt; apply Hlt in Hin; lia.
  - open_world w; run_route; by destruct rch.
  - open_world w; run_route.
    all: destruct rch; csimpl; try done.
    all: destruct (findById id l); csimpl; try done.
    all: rewrite ids_update_first by done; split; [done|].
    all: by apply Forall_update_first.
  - open_world w; run_route.
    all: destruct rch; csimpl; try done.
    all: destruct (findById id l); csimpl; try done.
    all: split; [by apply NoDup_remove_first | by apply Forall_remove_first].
Qed.

(** ** Deletion *)

(** What a DELETE does, in one equation. *)
Lemma delete_api_tasks_eq (w : World) (id : ObjectId) :
  exists w',
    delete_api_tasks id w =
      (if reachable w then Resolved (res_send 204)
       else Rejected StoreUnavailable, w') /\
    reachable w' = reachable w /\
    tasks w' = if reachable w then remove_first id (tasks w) else tasks w.
Proof.
  open_world w; run_route.
  all: destruct rch; simpl; [|by eexists].
  all: destruct (findById id l) eqn:E; simpl; eexists; split; try reflexivity.
  all: simpl; split; [done|]; by rewrite ?remove_first_absent by done.
Qed.

(** ** Store failures *)

Ltac step_await :=
  match goal with
  | H : context [match ?m ?w with pair _ _ => _ end] |- _ =>
      let x := fresh "x" in let e := fresh "e" in let w' := fresh "w" in
      destruct (m w) as [[x|e] w'] eqn:?; simpl in H
  | |- context [match ?m ?w with pair _ _ => _ end] =>
      let x := fresh "x" in let e := fresh "e" in let w' := fresh "w" in
      destruct (m w) as [[x|e] w'] eqn:?; simpl
  end.

(** The failures that the handlers can meet: no call raises
    [NotFoundError]. *)
Lemma route_rejections (r : Request) (w : World) (e : StoreError) :
  fst (route r w) = Rejected e -> e = ValidationError \/ e = StoreUnavailable.
Proof.
  destruct r as [b| |id b|id]; [destruct b as [bt bd bdd bc bca]|..].
  all: open_world w; run_route.
  all: try destruct (required_string bt); simpl.
  all: destruct rch; simpl; try destruct (findById id l); simpl.
  all: intros [= <-]; auto.
Qed.

(** C9. No handler catches a failure of the store: whenever a store
    operation fails during a request to one of the four routes, whatever the
    failure, the handler's promise rejects with it, and the service answers
    with the unstructured 500. *)
Theorem store_failure_is_unstructured_500 (r : Request) (w : World)
    (e : StoreError) :
  store_fails r w e ->
  fst (route r w) = Rejected e /\
  fst (serve r w) = mkResponse 500 Unstructured.
Proof.
  intros Hf.
  assert (fst (route r w) = Rejected e) as Hrej.
  { destruct Hf as [Hc | (w1 & Hc & Hop)].
    - destruct r; simpl;
        unfold post_api_tasks, get_api_tasks, put_api_tasks, delete_api_tasks;
        unfold await at 1; destruct (connectDB w) as [[[]|e'] w1];
        simpl in *; by simplify_eq.
    - destruct r; simpl in *;
        unfold post_api_tasks, get_api_tasks, put_api_tasks, delete_api_tasks;
        unfold await at 1; rewrite Hc;
        unfold await in *; repeat step_await; simpl in *; by simplify_eq. }
  split; [exact Hrej|].
  unfold serve. destruct (route r w) as [[res|e'] w']; simpl in *; by simplify_eq.
Qed.

Lemma store_failure_is_unstructured_500_witness :
  fst (serve (POST empty_body) (mkWorld 1 true 0%Z 0 []))
    = mkResponse 500 Unstructured /\
  fst (serve GET (mkWorld 0 false 0%Z 0 [])) = mkResponse 500 Unstructured.
Proof.
  split.
  - refine (proj2 (store_failure_is_unstructured_500 (POST empty_body)
                     (mkWorld 1 true 0%Z 0 []) ValidationError _)).
    right. eexists. split; reflexivity.
  - refine (proj2 (store_failure_is_unstructured_500 GET
                     (mkWorld 0 false 0%Z 0 []) StoreUnavailable _)).
    left. reflexivity.
Defined.

(** ** Further properties of the service *)

Ltac unfold_world :=
  unfold set_reachable, set_now, set_readyState, set_nextId, set_tasks in *.

(** No route changes the clock or the network. *)
Lemma route_frame (r : Request) (w : World) :
  reachable (snd (route r w)) = reachable w /\ now (snd (route r w)) = now w.
Proof.
  destruct r as [b| |id b|id]; [destruct b as [bt bd bdd bc bca]|..].
  all: open_world w; run_route.
  all: try destruct (required_string bt); simpl.
  all: destruct rch; simpl; try destruct (findById id l); simpl; done.
Qed.

(** A PUT keeps the titles valid unless its body names an empty title. *)
Lemma put_keeps_titles_valid (w : World) (id : ObjectId) (b : Body) :
  puts_empty_title (Req (PUT id b)) = false ->
  titles_valid w -> titles_valid (snd (put_api_tasks id b w)).
Proof.
  unfold titles_valid. simpl. intros Hb H.
  destruct (put_api_tasks_eq w id b) as (w' & Heq & Ht).
  rewrite Heq. simpl. rewrite Ht. destruct (reachable w); [|done].
  apply Forall_update_first; [|done].
  intros d Hd. unfold validate in *. simpl.
  destruct (body_title b) as [s|]; [|done].
  simpl. by rewrite Hb.
Qed.

(** Every request keeps the titles valid, a PUT that names an empty title
    apart. *)
Lemma route_keeps_titles_valid (r : Request) (w : World) :
  puts_empty_title (Req r) = false ->
  titles_valid w -> titles_valid (snd (route r w)).
Proof.
  intros Hr Hw. destruct r as [b| |id b|id]; simpl.
  - by apply post_keeps_titles_valid.
  - unfold titles_valid in *. open_world w; run_route; by destruct rch.
  - by apply put_keeps_titles_valid.
  - by apply delete_keeps_titles_valid.
Qed.

(** X5. A handler answers only when the server is reachable, and then with the
    status of its route: 201 and the created Task, which passes validation
    and is in the collection; 200 and the collection as it is; 200 and the
    record stored under the id after the update, or [null] when there is
    none; 204 and no body.  No handler sends any other status. *)
Theorem route_responses (r : Request) (w w' : World) (res : Response) :
  route r w = (Resolved res, w') ->
  reachable w = true /\
  match r with
  | POST b =>
      status res = 201%nat /\
      exists d, resBody res = JsonTask d /\ validate d = true /\ d ∈ tasks w'
  | GET =>
      status res = 200%nat /\ resBody res = JsonTasks (tasks w') /\
      tasks w' = tasks w
  | PUT id b =>
      status res = 200%nat /\ resBody res = json_of (findById id (tasks w'))
  | DELETE id =>
      status res = 204%nat /\ resBody res = NoBody
  end.
Proof.
  destruct r as [b| |id b|id].
  - destruct b as [bt bd bdd bc bca]. open_world w; run_route.
    all: destruct (required_string bt) eqn:Hv; simpl.
    all: destruct rch; simpl; intros [= <- <-]; simpl.
    all: repeat split; eexists; split; [reflexivity|].
    all: split; [exact Hv|]; apply elem_of_app; right; apply list_elem_of_singleton; done.
  - open_world w; run_route.
    all: destruct rch; simpl; intros [= <- <-]; by simpl.
  - simpl. destruct (put_api_tasks_eq w id b) as (w1 & Heq & Ht).
    rewrite Heq. destruct (reachable w); [|done].
    intros [= <- <-]. simpl. rewrite Ht. repeat split.
    destruct (findById id (tasks w)) as [d|] eqn:Hd; simpl.
    + by rewrite (findById_update_first _ _ _ d).
    + by rewrite update_first_absent, Hd.
  - simpl. destruct (delete_api_tasks_eq w id) as (w1 & Heq & _).
    rewrite Heq. destruct (reachable w); [|done].
    by intros [= <- <-].
Qed.

Lemma route_responses_witness :
  exists d,
    JsonTask (mkTask 0 (Some "A"%string) None None false 9%Z) = JsonTask d /\
    validate d = true /\
    d ∈ [mkTask 0 (Some "A"%string) None None false 9%Z].
Proof.
  exact (proj2 (proj2 (route_responses (POST (title_body "A"))
                         (mkWorld 1 true 9%Z 0 [])
                         (mkWorld 1 true 9%Z 1
                            [mkTask 0 (Some "A"%string) None None false 9%Z])
                         (res_json 201
                            (JsonTask (mkTask 0 (Some "A"%string) None None false 9%Z)))
                         eq_refl))).
Defined.

(** What a GET does, in one equation. *)
Lemma get_api_tasks_eq (w : World) :
  tasks (snd (get_api_tasks w)) = tasks w /\
  nextId (snd (get_api_tasks w)) = nextId w /\
  fst (get_api_tasks w) =
    if reachable w then Resolved (res_json 200 (JsonTasks (tasks w)))
    else Rejected StoreUnavailable.
Proof. open_world w; run_route; by destruct rch. Qed.


(** X8. A PUT neither adds nor removes a record, whatever the id and the body:
    the ids of the collection are the same, in the same order (there is no
    upsert), and the record under any other id is untouched. *)
Theorem put_keeps_ids (w : World) (id : ObjectId) (b : Body) :
  _id <$> tasks (snd (put_api_tasks id b w)) = _id <$> tasks w /\
  forall id', id' <> id ->
    findById id' (tasks (snd (put_api_tasks id b w))) = findById id' (tasks w).
Proof.
  destruct (put_api_tasks_eq w id b) as (w' & Heq & Ht).
  rewrite Heq. simpl. rewrite Ht. destruct (reachable w); [|done].
  split; [by apply ids_update_first|].
  intros id' Hne. by apply findById_update_first_ne.
Qed.

Lemma apply_update_idem (b : Body) (d : TaskDoc) :
  apply_update b (apply_update b d) = apply_update b d.
Proof.
  destruct b as [[?|] [?|] [?|] [?|] [?|]]; by destruct d.
Qed.

Lemma update_first_twice id f l :
  (forall x, _id (f x) = _id x) ->
  update_first id f (update_first id f l) = update_first id (fun x => f (f x)) l.
Proof.
  intros Hf. induction l as [|x l IH]; simpl; [done|].
  destruct (_id x =? id) eqn:E; simpl.
  - by rewrite Hf, E.
  - by rewrite E, IH.
Qed.

Lemma update_first_ext id f g l :
  (forall x, f x = g x) -> update_first id f l = update_first id g l.
Proof.
  intros Hfg. induction l as [|x l IH]; simpl; [done|].
  destruct (_id x =? id); by rewrite ?Hfg, ?IH.
Qed.

(** On an id and a body that have been cast, repeating a PUT gives the same
    response and leaves the collection as the first one left it. *)
Lemma put_api_tasks_idempotent (w : World) (id : ObjectId) (b : Body) :
  let w1 := snd (put_api_tasks id b w) in
  fst (put_api_tasks id b w1) = fst (put_api_tasks id b w) /\
  tasks (snd (put_api_tasks id b w1)) = tasks w1.
Proof.
  intros w1. subst w1.
  destruct (put_api_tasks_eq w id b) as (w1 & Heq & Ht).
  destruct (put_api_tasks_eq w1 id b) as (w2 & Heq2 & Ht2).
  assert (reachable w1 = reachable w) as Hr.
  { pose proof (route_frame (PUT id b) w) as [H _]. simpl in H.
    by rewrite Heq in H. }
  rewrite Heq. simpl. rewrite Heq2. simpl. rewrite Ht2, Hr, Ht.
  destruct (reachable w); [|done]. split.
  - destruct (findById id (tasks w)) as [d|] eqn:Hd; simpl.
    + rewrite (findById_update_first _ _ _ d) by done. simpl.
      by rewrite apply_update_idem.
    + by rewrite update_first_absent, Hd.
  - rewrite update_first_twice by done.
    apply update_first_ext, apply_update_idem.
Qed.

(** *** Creating, deleting and listing together *)

Lemma filter_other_ids (id : ObjectId) (l : list TaskDoc) :
  id ∉ _id <$> l -> filter (fun d => _id d <> id) l = l.
Proof.
  induction l as [|x l IH]; csimpl; [done|].
  rewrite not_elem_of_cons. intros [Hne Hl].
  rewrite filter_cons_True by congruence. by rewrite IH.
Qed.

Lemma remove_first_filter (id : ObjectId) (l : list TaskDoc) :
  NoDup (_id <$> l) ->
  remove_first id l = filter (fun d => _id d <> id) l.
Proof.
  induction l as [|x l IH]; csimpl; [done|].
  rewrite NoDup_cons. intros [Hx Hl].
  destruct (_id x =? id) eqn:E.
  - apply N.eqb_eq in E. subst id.
    rewrite filter_cons_False by (intros H; by apply H).
    by rewrite filter_other_ids.
  - apply N.eqb_neq in E. rewrite filter_cons_True by done.
    by rewrite IH.
Qed.



Lemma remove_first_snoc_fresh id d l :
  _id d = id -> findById id l = None -> remove_first id (l ++ [d]) = l.
Proof.
  intros <-. unfold findById. induction l as [|x l IH]; simpl.
  - by rewrite N.eqb_refl.
  - destruct (_id x =? _id d); [done|]. intros H. by rewrite IH.
Qed.

(** What a successful POST does, in one equation. *)
Lemma post_api_tasks_eq (w : World) (b : Body) :
  reachable w = true ->
  required_string (body_title b) = true ->
  let d := mkTask (nextId w) (body_title b) (body_description b)
             (body_dueDate b) (default false (body_isCompleted b))
             (default (now w) (body_createdAt b)) in
  exists w1,
    post_api_tasks b w = (Resolved (res_json 201 (JsonTask d)), w1) /\
    tasks w1 = tasks w ++ [d] /\
    reachable w1 = true.
Proof.
  intros Hr Hv. destruct b as [bt bd bdd bc bca]. simpl in Hv.
  open_world w; run_route; rewrite Hv; simpl; by eexists.
Qed.



(** X11. Creating a Task and then deleting the id that the POST returned puts
    the collection back as it was (the clock may have moved in between); the
    store's ids are distinct and the generator is ahead of them. *)
Theorem post_then_delete (w : World) (b : Body) (t : Date) :
  reachable w = true ->
  ids_fresh w ->
  required_string (body_title b) = true ->
  exists d w1,
    post_api_tasks b w = (Resolved (res_json 201 (JsonTask d)), w1) /\
    fst (delete_api_tasks (_id d) (set_now t w1)) = Resolved (res_send 204) /\
    tasks (snd (delete_api_tasks (_id d) (set_now t w1))) = tasks w.
Proof.
  intros Hr [_ Hlt] Hv.
  destruct (post_api_tasks_eq w b Hr Hv) as (w1 & Hpost & Ht & Hr1).
  eexists _, w1. split; [exact Hpost|]. simpl.
  destruct (delete_api_tasks_eq (set_now t w1) (nextId w)) as (w2 & Heq & _ & Ht2).
  rewrite Heq. simpl in *. rewrite Hr1 in *. split; [done|].
  rewrite Ht2, Ht. apply remove_first_snoc_fresh; [done|].
  by apply findById_fresh.
Qed.

Lemma post_then_delete_witness :
  exists d w1,
    post_api_tasks (title_body "Walk")
      (mkWorld 0 true 50%Z 4 [mkTask 3 (Some "Buy milk"%string) None None false 10%Z])
      = (Resolved (res_json 201 (JsonTask d)), w1) /\
    tasks (snd (delete_api_tasks (_id d) (set_now 70%Z w1)))
      = [mkTask 3 (Some "Buy milk"%string) None None false 10%Z].
Proof.
  assert (ids_fresh (mkWorld 0 true 50%Z 4
            [mkTask 3 (Some "Buy milk"%string) None None false 10%Z])) as Hf.
  { split; [apply NoDup_singleton | apply Forall_singleton; reflexivity]. }
  destruct (post_then_delete
              (mkWorld 0 true 50%Z 4
                 [mkTask 3 (Some "Buy milk"%string) None None false 10%Z])
              (title_body "Walk") 70%Z eq_refl Hf eq_refl)
    as (d & w1 & H1 & _ & H3).
  exists d, w1. split; [exact H1 | exact H3].
Defined.



(** ** The client *)

Ltac run_client :=
  unfold act, handleSubmit, handleEdit, handleDelete, fetchTasks, axios,
    handleChange, setTasks, setFormData, form_body;
  run_route.

Lemma axios_snd (r : Request) (w : World) : snd (axios r w) = snd (route r w).
Proof.
  unfold axios. destruct (route r w) as [[res|e] w']; simpl; [|done].
  by destruct (_ && _).
Qed.

(** Every status that a handler sends is a 2xx. *)
Lemma route_status_2xx (r : Request) (w w' : World) (res : Response) :
  route r w = (Resolved res, w') ->
  (200 <=? status res)%nat && (status res <? 300)%nat = true.
Proof.
  destruct r as [b| |id b|id]; [destruct b as [bt bd bdd bc bca]|..].
  all: open_world w; run_route.
  all: try destruct (required_string bt); simpl.
  all: destruct rch; simpl; try destruct (findById id l); simpl.
  all: by intros [= <- <-].
Qed.

(** An awaited call yields a value exactly when the handler answered, and
    the value is the body of the answer. *)
Lemma axios_fst (r : Request) (w : World) :
  fst (axios r w) =
    match fst (route r w) with
    | Resolved res => Some (resBody res)
    | Rejected _ => None
    end.
Proof.
  unfold axios. destruct (route r w) as [[res|e] w'] eqn:Hr; [|done].
  by rewrite (route_status_2xx r w w' res Hr).
Qed.

Lemma fetchTasks_eq (ui : UI) (w : World) :
  fetchTasks ui w =
    (if reachable w then setTasks (JsonTasks (tasks w)) ui else ui,
     snd (get_api_tasks w)).
Proof. open_world w; run_client; by destruct rch. Qed.



(** X14. Submitting the form with an empty title changes nothing that the user
    can see: the create request fails, so the list is not refetched and the
    form is not cleared; the collection is unchanged. *)
Theorem handleSubmit_empty_title (ui : UI) (w : World) :
  form_title (formData ui) = ""%string ->
  fst (handleSubmit ui w) = ui /\
  tasks (snd (handleSubmit ui w)) = tasks w.
Proof.
  intros Hs. destruct ui as [shown [ft fd fdd]]. simpl in *. subst ft.
  open_world w; run_client; by destruct rch.
Qed.

Lemma handleSubmit_empty_title_witness :
  fst (handleSubmit (mkUI (JsonTasks []) (mkForm "" "2 litres" (Some 5%Z)))
         (mkWorld 0 true 9%Z 0 []))
  = mkUI (JsonTasks []) (mkForm "" "2 litres" (Some 5%Z)).
Proof.
  exact (proj1 (handleSubmit_empty_title
                  (mkUI (JsonTasks []) (mkForm "" "2 litres" (Some 5%Z)))
                  (mkWorld 0 true 9%Z 0 []) eq_refl)).
Defined.

(** X15. The Edit button, on a store that answers and holds the id: whatever the
    Task's title, description and due date were, they become the fixed
    values of the payload; its id, [isCompleted] and [createdAt] stay; the
    other Tasks are untouched; the form is left alone and the list shown is
    the store's collection. *)
Theorem handleEdit_overwrites (id : ObjectId) (ui : UI) (w : World) (d : TaskDoc) :
  reachable w = true ->
  findById id (tasks w) = Some d ->
  let ui' := fst (handleEdit id ui w) in
  let w' := snd (handleEdit id ui w) in
  findById id (tasks w')
    = Some (mkTask (_id d) (Some "Updated Title"%string)
              (Some "Updated Description"%string) (Some 1738627200000%Z)
              (isCompleted d) (createdAt d)) /\
  (forall id', id' <> id -> findById id' (tasks w') = findById id' (tasks w)) /\
  ui_tasks ui' = JsonTasks (tasks w') /\
  formData ui' = formData ui.
Proof.
  intros Hr Hd ui' w'. subst ui' w'. unfold handleEdit.
  pose proof (axios_snd (PUT id updatedTask) w) as Hs.
  pose proof (axios_fst (PUT id updatedTask) w) as Hf.
  destruct (axios (PUT id updatedTask) w) as [o w1]. simpl in Hs, Hf. subst w1.
  destruct (put_api_tasks_eq w id updatedTask) as (w1 & Heq & Ht).
  pose proof (route_frame (PUT id updatedTask) w) as [Hr1 _]. simpl in Hr1.
  rewrite Heq in Hf, Hr1 |- *. rewrite Hr in Hf, Ht, Hr1. simpl in *. subst o.
  rewrite fetchTasks_eq, Hr1. simpl.
  destruct (get_api_tasks_eq w1) as (Hg & _). rewrite Hg, Ht.
  split; [by rewrite (findById_update_first _ _ _ d)|].
  split; [|done]. intros id' Hne. by apply findById_update_first_ne.
Qed.

Lemma handleEdit_overwrites_witness :
  findById 3 (tasks (snd (handleEdit 3 initial_UI
     (mkWorld 1 true 50%Z 4
        [mkTask 3 (Some "Buy milk"%string) None (Some 7%Z) true 10%Z]))))
  = Some (mkTask 3 (Some "Updated Title"%string) (Some "Updated Description"%string)
            (Some 1738627200000%Z) true 10%Z).
Proof.
  exact (proj1 (handleEdit_overwrites 3 initial_UI
                  (mkWorld 1 true 50%Z 4
                     [mkTask 3 (Some "Buy milk"%string) None (Some 7%Z) true 10%Z])
                  _ eq_refl eq_refl)).
Defined.

(** X16. The Delete button, on a store that answers and whose ids are distinct:
    afterwards the list shown is the store's collection, which is the
    previous one without the Task of that id; the form is left alone. *)
Theorem handleDelete_removes (id : ObjectId) (ui : UI) (w : World) :
  reachable w = true ->
  NoDup (_id <$> tasks w) ->
  let ui' := fst (handleDelete id ui w) in
  let w' := snd (handleDelete id ui w) in
  tasks w' = filter (fun d => _id d <> id) (tasks w) /\
  ui_tasks ui' = JsonTasks (tasks w') /\
  formData ui' = formData ui.
Proof.
  intros Hr Hnd ui' w'. subst ui' w'. unfold handleDelete.
  pose proof (axios_snd (DELETE id) w) as Hs.
  pose proof (axios_fst (DELETE id) w) as Hf.
  destruct (axios (DELETE id) w) as [o w1]. simpl in Hs, Hf. subst w1.
  destruct (delete_api_tasks_eq w id) as (w1 & Heq & Hr1 & Ht).
  rewrite Heq in Hf |- *. rewrite Hr in Hf, Ht, Hr1. simpl in *. subst o.
  rewrite fetchTasks_eq, Hr1. simpl.
  destruct (get_api_tasks_eq w1) as (Hg & _). rewrite Hg, Ht.
  by rewrite remove_first_filter.
Qed.

Lemma handleDelete_removes_witness :
  let a := mkTask 3 (Some "Buy milk"%string) None None false 10%Z in
  let b := mkTask 5 (Some "Walk"%string) None None true 11%Z in
  tasks (snd (handleDelete 3 initial_UI (mkWorld 1 true 50%Z 6 [a; b]))) = [b].
Proof.
  intros a b.
  assert (NoDup (_id <$> tasks (mkWorld 1 true 50%Z 6 [a; b]))) as Hnd.
  { apply NoDup_cons. split; [|apply NoDup_singleton].
    intros H%list_elem_of_singleton. discriminate H. }
  exact (proj1 (handleDelete_removes 3 initial_UI (mkWorld 1 true 50%Z 6 [a; b])
                  eq_refl Hnd)).
Defined.

(** X17. When the server does not answer, no action changes what the user sees,
    typing apart: the list shown and the form are as before (a failed submit
    does not clear the form), and the collection is unchanged. *)
Theorem act_unreachable (a : Action) (ui : UI) (w : World) :
  reachable w = false ->
  fst (act a ui w) = match a with Type_ e => handleChange e ui | _ => ui end /\
  tasks (snd (act a ui w)) = tasks w.
Proof.
  intros Hr. destruct ui as [shown [ft fd fdd]].
  destruct a as [|e| |id|id]; open_world w; run_client; try done.
  all: by destruct ft.
Qed.

Lemma act_unreachable_witness :
  fst (act Submit (mkUI (JsonTasks []) (mkForm "Buy milk" "" None))
         (mkWorld 0 false 9%Z 0 []))
  = mkUI (JsonTasks []) (mkForm "Buy milk" "" None).
Proof.
  exact (proj1 (act_unreachable Submit
                  (mkUI (JsonTasks []) (mkForm "Buy milk" "" None))
                  (mkWorld 0 false 9%Z 0 []) eq_refl)).
Defined.



(** *** Sessions *)

Lemma run_app (evs1 evs2 : list Event) (w : World) :
  run (evs1 ++ evs2) w = run evs2 (run evs1 w).
Proof. unfold run. apply foldl_app. Qed.

(** What an action does to the world is what the requests it sends do. *)
Lemma act_run (a : Action) (ui : UI) (w : World) :
  exists rs, Forall from_ui rs /\ snd (act a ui w) = run (Req <$> rs) w.
Proof.
  destruct a as [|e| |id|id]; simpl.
  - exists [GET]. split; [by repeat constructor|]. by rewrite fetchTasks_eq.
  - by exists [].
  - unfold handleSubmit.
    pose proof (axios_snd (POST (form_body (formData ui))) w) as Hs.
    destruct (axios (POST (form_body (formData ui))) w) as [[o|] w1];
      simpl in Hs; subst w1.
    + exists [POST (form_body (formData ui)); GET].
      split; [repeat constructor; by eexists|].
      rewrite fetchTasks_eq. done.
    + exists [POST (form_body (formData ui))].
      split; [repeat constructor; by eexists|]. done.
  - unfold handleEdit. pose proof (axios_snd (PUT id updatedTask) w) as Hs.
    destruct (axios (PUT id updatedTask) w) as [[o|] w1]; simpl in Hs; subst w1.
    + exists [PUT id updatedTask; GET]. split; [by repeat constructor|].
      by rewrite fetchTasks_eq.
    + exists [PUT id updatedTask]. split; [by repeat constructor|]. done.
  - unfold handleDelete. pose proof (axios_snd (DELETE id) w) as Hs.
    destruct (axios (DELETE id) w) as [[o|] w1]; simpl in Hs; subst w1.
    + exists [DELETE id; GET]. split; [by repeat constructor|].
      by rewrite fetchTasks_eq.
    + exists [DELETE id]. split; [by repeat constructor|]. done.
Qed.

Lemma session_run (acts : list Action) (ui : UI) (w : World) :
  exists rs, Forall from_ui rs /\ snd (session acts ui w) = run (Req <$> rs) w.
Proof.
  revert ui w. induction acts as [|a acts IH]; intros ui w.
  - by exists [].
  - destruct (act_run a ui w) as (rs1 & H1 & E1).
    destruct (IH (fst (act a ui w)) (snd (act a ui w))) as (rs2 & H2 & E2).
    exists (rs1 ++ rs2). split; [by apply Forall_app|].
    rewrite fmap_app, run_app, <- E1. unfold session in *. simpl.
    by destruct (act a ui w).
Qed.

(** A property kept by every request that the client can send is kept by
    every session. *)
Lemma session_invariant (P : World -> Prop) :
  (forall r w, from_ui r -> P w -> P (snd (route r w))) ->
  forall acts ui w, P w -> P (snd (session acts ui w)).
Proof.
  intros Hstep acts ui w Hw.
  destruct (session_run acts ui w) as (rs & Hrs & ->).
  revert w Hw. induction Hrs as [|r rs Hr _ IH]; intros w Hw; [done|].
  csimpl. apply IH. by apply Hstep.
Qed.

Lemma post_tasks_eq (w : World) (b : Body) :
  tasks (snd (post_api_tasks b w)) =
    if reachable w && required_string (body_title b)
    then tasks w ++ [mkTask (nextId w) (body_title b) (body_description b)
                       (body_dueDate b) (default false (body_isCompleted b))
                       (default (now w) (body_createdAt b))]
    else tasks w.
Proof.
  destruct b as [bt bd bdd bc bca]. open_world w; run_route.
  all: destruct rch; simpl; by destruct (required_string bt).
Qed.

Lemma route_nextId_mono (r : Request) (w : World) :
  nextId w <= nextId (snd (route r w)).
Proof.
  destruct r as [b| |id b|id]; [destruct b as [bt bd bdd bc bca]|..].
  all: open_world w; run_route.
  all: try destruct (required_string bt); simpl.
  all: destruct rch; simpl; try destruct (findById id l); simpl; lia.
Qed.

Lemma findById_app_Some id l k d :
  findById id l = Some d -> findById id (l ++ k) = Some d.
Proof.
  unfold findById. induction l as [|x l IH]; simpl; [done|].
  by destruct (_id x =? id).
Qed.

Lemma findById_app_None id l k :
  findById id l = None -> findById id (l ++ k) = findById id k.
Proof.
  unfold findById. induction l as [|x l IH]; simpl; [done|].
  by destruct (_id x =? id).
Qed.

Lemma findById_remove_first_ne id id' l :
  id' <> id -> findById id' (remove_first id l) = findById id' l.
Proof.
  intros Hne. unfold findById. induction l as [|x l IH]; simpl; [done|].
  destruct (_id x =? id) eqn:E; simpl.
  - apply N.eqb_eq in E.
    assert ((_id x =? id') = false) as -> by (apply N.eqb_neq; congruence).
    done.
  - by rewrite IH.
Qed.

(** X19. The client cannot reach the defect of the update path: every session,
    whatever is typed and clicked, keeps the title of every stored Task
    non-empty. *)
Theorem session_keeps_titles_valid (acts : list Action) (ui : UI) (w : World) :
  titles_valid w -> titles_valid (snd (session acts ui w)).
Proof.
  apply session_invariant. intros r w0 Hr Hw.
  apply route_keeps_titles_valid; [|done].
  destruct r as [b| |id b|id]; simpl in *; try done. by subst b.
Qed.

Lemma session_keeps_titles_valid_witness :
  titles_valid (snd (session
    [Type_ (ChangeTitle "Buy milk"); Submit; Submit; Edit 0; Delete 5; Load]
    initial_UI (mkWorld 0 true 1%Z 0 []))).
Proof.
  apply session_keeps_titles_valid. apply Forall_nil_2.
Defined.

(** X20. The client has no way to complete a Task: if no stored Task is
    completed, none is after any session. *)
Theorem session_never_completes (acts : list Action) (ui : UI) (w : World) :
  none_completed w -> none_completed (snd (session acts ui w)).
Proof.
  apply session_invariant. unfold none_completed. intros r w0 Hr Hw.
  destruct r as [b| |id b|id]; simpl in *.
  - destruct Hr as [f ->]. rewrite post_tasks_eq.
    destruct (_ && _); [|done].
    apply Forall_app. split; [done|]. by apply Forall_singleton.
  - by destruct (get_api_tasks_eq w0) as (-> & _).
  - subst b. destruct (put_api_tasks_eq w0 id updatedTask) as (w1 & Heq & Ht).
    rewrite Heq. simpl. rewrite Ht. destruct (reachable w0); [|done].
    by apply Forall_update_first.
  - destruct (delete_api_tasks_eq w0 id) as (w1 & Heq & _ & Ht).
    rewrite Heq. simpl. rewrite Ht. destruct (reachable w0); [|done].
    by apply Forall_remove_first.
Qed.

Lemma session_never_completes_witness :
  none_completed (snd (session
    [Type_ (ChangeTitle "Buy milk"); Submit; Edit 0; Edit 0; Load]
    initial_UI (mkWorld 0 true 1%Z 0 []))).
Proof.
  apply session_never_completes. apply Forall_nil_2.
Defined.

Lemma findById_elem id l d : findById id l = Some d -> d ∈ l /\ _id d = id.
Proof.
  unfold findById. intros H. apply find_some in H as [Hin H].
  split; [by apply list_elem_of_In | by apply N.eqb_eq].
Qed.

(** X21. Through the client, a Task keeps its [createdAt] and its [isCompleted]
    for as long as it exists: after any session, the store holds under its
    id either nothing or a Task with the same two values.  The ids of the
    store are distinct and the generator is ahead of them. *)
Theorem session_keeps_createdAt (acts : list Action) (ui : UI) (w : World)
    (id : ObjectId) (d : TaskDoc) :
  ids_fresh w ->
  findById id (tasks w) = Some d ->
  match findById id (tasks (snd (session acts ui w))) with
  | Some d' => createdAt d' = createdAt d /\ isCompleted d' = isCompleted d
  | None => True
  end.
Proof.
  intros Hf Hd.
  set (P := fun w0 : World =>
    ids_fresh w0 /\ id < nextId w0 /\
    match findById id (tasks w0) with
    | Some d' => createdAt d' = createdAt d /\ isCompleted d' = isCompleted d
    | None => True
    end).
  assert (P (snd (session acts ui w))) as (_ & _ & H); [|exact H].
  apply session_invariant.
  - clear. intros r w0 Hr (Hf & Hlt & Hk).
    split; [by apply route_keeps_ids_fresh|].
    split; [pose proof (route_nextId_mono r w0); lia|].
    destruct r as [b| |id0 b|id0]; simpl in *.
    + rewrite post_tasks_eq. destruct (_ && _); [|done].
      destruct (findById id (tasks w0)) as [d0|] eqn:E.
      * by rewrite (findById_app_Some _ _ _ d0).
      * rewrite findById_app_None by done. unfold findById. simpl.
        assert ((nextId w0 =? id) = false) as -> by (apply N.eqb_neq; lia).
        done.
    + by destruct (get_api_tasks_eq w0) as (-> & _).
    + subst b. destruct (put_api_tasks_eq w0 id0 updatedTask) as (w1 & Heq & Ht).
      rewrite Heq. simpl. rewrite Ht. destruct (reachable w0); [|done].
      destruct (decide (id = id0)) as [->|Hne].
      * destruct (findById id0 (tasks w0)) as [d0|] eqn:E.
        -- by rewrite (findById_update_first _ _ _ d0).
        -- by rewrite update_first_absent, E.
      * by rewrite findById_update_first_ne.
    + destruct (delete_api_tasks_eq w0 id0) as (w1 & Heq & _ & Ht).
      rewrite Heq. simpl. rewrite Ht. destruct (reachable w0); [|done].
      destruct (decide (id = id0)) as [->|Hne].
      * destruct Hf as [Hnd _]. by rewrite findById_remove_first.
      * by rewrite findById_remove_first_ne.
  - split; [done|]. split; [|by rewrite Hd].
    apply findById_elem in Hd as [Hin <-]. destruct Hf as [_ Hlt].
    rewrite Forall_forall in Hlt. by apply Hlt.
Qed.

Lemma session_keeps_createdAt_witness :
  match findById 3 (tasks (snd (session [Edit 3; Load; Edit 3] initial_UI
          (mkWorld 1 true 50%Z 4
             [mkTask 3 (Some "Buy milk"%string) None None true 10%Z])))) with
  | Some d' => createdAt d' = 10%Z /\ isCompleted d' = true
  | None => True
  end.
Proof.
  assert (ids_fresh (mkWorld 1 true 50%Z 4
            [mkTask 3 (Some "Buy milk"%string) None None true 10%Z])) as Hf.
  { split; [apply NoDup_singleton | apply Forall_singleton; reflexivity]. }
  exact (session_keeps_createdAt [Edit 3; Load; Edit 3] initial_UI
           (mkWorld 1 true 50%Z 4
              [mkTask 3 (Some "Buy milk"%string) None None true 10%Z])
           3 _ Hf eq_refl).
Defined.

(** An action either leaves the list shown as it was or replaces it by the
    store's collection. *)
Lemma act_list (a : Action) (ui : UI) (w : World) :
  ui_tasks (fst (act a ui w)) = ui_tasks ui \/
  ui_tasks (fst (act a ui w)) = JsonTasks (tasks (snd (act a ui w))).
Proof.
  destruct ui as [shown [ft fd fdd]].
  destruct a as [|e| |id|id]; open_world w; run_client.
  all: try destruct ft; simpl.
  all: destruct rch; simpl; try destruct (findById id l); simpl; auto.
Qed.

(** X22. The list is always renderable, with distinct row keys: from the initial
    page, on a store whose ids are distinct and below the generator, after
    any session the [tasks] state is an array and no two of its rows have
    the same key. *)
Theorem session_rows_distinct (acts : list Action) (w : World) :
  ids_fresh w ->
  exists ks, row_keys (fst (session acts initial_UI w)) = Some ks /\ NoDup ks.
Proof.
  intros Hw.
  assert (exists ks, row_keys initial_UI = Some ks /\ NoDup ks) as Hui
    by (exists []; split; [done | apply NoDup_nil_2]).
  revert Hw Hui. generalize initial_UI as ui. revert w.
  induction acts as [|a acts IH]; intros w ui Hw Hui; [done|].
  assert (ids_fresh (snd (act a ui w))) as Hw1.
  { destruct (act_run a ui w) as (rs & Hrs & ->).
    clear Hui. revert w Hw. induction Hrs as [|r rs _ _ IHrs]; intros w Hw; [done|].
    csimpl. apply IHrs. by apply route_keeps_ids_fresh. }
  pose proof (act_list a ui w) as Hl.
  unfold session in *. simpl. destruct (act a ui w) as [ui1 w1]. simpl in *.
  apply IH; [done|].
  unfold row_keys in *. destruct Hl as [-> | ->]; [done|].
  destruct Hw1 as [Hnd _]. by eexists.
Qed.

Lemma session_rows_distinct_witness :
  exists ks,
    row_keys (fst (session
      [Type_ (ChangeTitle "A"); Submit; Type_ (ChangeTitle "B"); Submit; Delete 0]
      initial_UI (mkWorld 0 true 1%Z 0 []))) = Some ks /\ NoDup ks.
Proof.
  apply session_rows_distinct. split; [apply NoDup_nil_2 | apply Forall_nil_2].
Defined.



(** ** The routes on requests as they arrive *)

Ltac run_app :=
  unfold app, app_post, app_put, app_delete, new_Task, Document_save,
    Task_findByIdAndUpdate, Task_findByIdAndDelete;
  run_route.

(** A body of typed values casts to itself. *)
Lemma cast_raw_of (b : Body) :
  cast_body (raw_of b) = b /\ cast_fails (raw_of b) = false.
Proof. by destruct b as [[?|] [?|] [?|] [?|] [?|]]. Qed.

(** On an [:id] and a body that cast, the PUT handler is [put_api_tasks]. *)
Lemma app_put_casts (id : string) (i : ObjectId) (r : RawBody) (w : World) :
  castObjectId id = Some i -> cast_fails r = false ->
  app_put id r w = put_api_tasks i (cast_body r) w.
Proof.
  intros Hi Hr. unfold app_put, put_api_tasks, Task_findByIdAndUpdate.
  by rewrite Hi, Hr.
Qed.

(** On an [:id] that casts, the DELETE handler is [delete_api_tasks]. *)
Lemma app_delete_casts (id : string) (i : ObjectId) (w : World) :
  castObjectId id = Some i -> app_delete id w = delete_api_tasks i w.
Proof.
  intros Hi. unfold app_delete, delete_api_tasks, Task_findByIdAndDelete.
  by rewrite Hi.
Qed.

(** On a body that casts and gives no [_id], the POST handler is
    [post_api_tasks], provided the generated id is new. *)
Lemma app_post_casts (r : RawBody) (w : World) :
  cast_fails r = false ->
  findById (nextId w) (tasks w) = None ->
  app_post Absent r w = post_api_tasks (cast_body r) w.
Proof.
  intros Hr Hn. open_world w; run_app; rewrite Hr; simpl.
  all: destruct (required_string _); simpl; [|done].
  all: destruct rch; simpl; [|done].
  all: by rewrite Hn.
Qed.

(** A query whose id or values do not cast is never sent: the handler
    rejects and the collection is as before. *)
Lemma app_put_uncast (id : string) (r : RawBody) (w : World) :
  castObjectId id = None \/ cast_fails r = true ->
  exists e w',
    app_put id r w = (Rejected e, w') /\ tasks w' = tasks w /\
    (e = CastError \/ e = StoreUnavailable /\ reachable w = false).
Proof.
  intros H. open_world w; run_app.
  all: try (destruct rch; simpl; [|eexists _, _; split; [reflexivity|]; auto]).
  all: destruct (castObjectId id); [|eexists _, _; split; [reflexivity|]; auto].
  all: destruct H as [H|H]; [done|].
  all: rewrite H; eexists _, _; split; [reflexivity|]; auto.
Qed.

Lemma app_delete_uncast (id : string) (w : World) :
  castObjectId id = None ->
  exists e w',
    app_delete id w = (Rejected e, w') /\ tasks w' = tasks w /\
    (e = CastError \/ e = StoreUnavailable /\ reachable w = false).
Proof.
  intros H. open_world w; run_app; rewrite H.
  all: try (destruct rch; simpl).
  all: eexists _, _; split; [reflexivity|]; auto.
Qed.

(** What a POST that resolves has done. *)
Lemma app_post_resolved (gid : Given ObjectId) (r : RawBody) (w w' : World)
    (res : Response) :
  app_post gid r w = (Resolved res, w') ->
  exists d,
    status res = 201%nat /\ resBody res = JsonTask d /\
    validate d = true /\ cast_fails r = false /\
    findById (_id d) (tasks w) = None /\
    tasks w' = tasks w ++ [d] /\
    reachable w = true /\ reachable w' = true.
Proof.
  destruct gid as [|i|]; open_world w; run_app.
  all: destruct (cast_fails r); simpl.
  all: try destruct (required_string _) eqn:Hv; simpl.
  all: destruct rch; simpl; try done.
  all: try (destruct (findById _ l) eqn:Hf; simpl; try done).
  all: intros [= <- <-]; eexists; repeat split; try done.
Qed.

(** C1 as stated fails, in three ways, on a store that answers and holds
    nothing.  A body with the title "A" that names [createdAt] gets a record
    with the body's [createdAt], not the store's clock.  A body with the
    title "A" whose [dueDate] does not cast is rejected: no 201.  A body with
    the title "A" that gives [_id] gets a record with that id, not the
    generated one. *)
Lemma app_post_title_is_not_enough :
  let w := mkWorld 1 true 9%Z 0 [] in
  (exists d w',
     app_post Absent (mkRaw (Casts "A"%string) Absent Absent Absent (Casts 5%Z)) w
       = (Resolved (mkResponse 201 (JsonTask d)), w') /\
     createdAt d = 5%Z /\ createdAt d <> now w) /\
  fst (app_post Absent (mkRaw (Casts "A"%string) Absent Uncastable Absent Absent) w)
    = Rejected ValidationError /\
  (exists d w',
     app_post (Casts 77) (mkRaw (Casts "A"%string) Absent Absent Absent Absent) w
       = (Resolved (mkResponse 201 (JsonTask d)), w') /\
     _id d = 77 /\ _id d <> nextId w).
Proof.
  split; [|split].
  - eexists _, _. split; [reflexivity|]. split; [reflexivity|]. discriminate.
  - reflexivity.
  - eexists _, _. split; [reflexivity|]. split; [reflexivity|]. discriminate.
Qed.

(** C1, amended.  A POST whose body gives a non-empty title and, for every
    other path it names, a value that casts, on a store that answers and
    does not hold the id of the new record, is answered with status 201 and
    a Task record.  The record's id is the generated one unless the body
    gives an [_id]; its [createdAt] is [Date.now()] when the body does not
    name it and the body's value when it does; [isCompleted] is [false] when
    the body does not set it; the other paths are as given; and the record
    is the one appended to the collection. *)
Theorem app_post_creates (w : World) (gid : Given ObjectId) (r : RawBody)
    (s : string) :
  reachable w = true ->
  raw_title r = Casts s -> s <> ""%string ->
  cast_fails r = false -> uncastable gid = false ->
  findById (default (nextId w) (given_value gid)) (tasks w) = None ->
  exists res d w',
    app_post gid r w = (Resolved res, w') /\
    status res = 201%nat /\ resBody res = JsonTask d /\
    _id d = default (nextId w) (given_value gid) /\
    title d = Some s /\
    description d = given_value (raw_description r) /\
    dueDate d = given_value (raw_dueDate r) /\
    isCompleted d = default false (given_value (raw_isCompleted r)) /\
    createdAt d = default (now w) (given_value (raw_createdAt r)) /\
    tasks w' = tasks w ++ [d].
Proof.
  intros Hr Ht Hs Hc Hg Hf. destruct s as [|a s]; [done|].
  destruct gid as [|i|]; [| |done]; simpl in Hf.
  all: open_world w; run_app; rewrite Hc, Ht; simpl; rewrite Hf; simpl.
  all: eexists _, _, _; split; [reflexivity|]; simpl.
  all: by rewrite ?Ht.
Qed.

Lemma app_post_creates_witness :
  exists res d w',
    app_post Absent (mkRaw (Casts "Buy milk"%string) Absent Absent Absent Absent)
      (mkWorld 0 true 1738627200000%Z 7 [])
      = (Resolved res, w') /\
    status res = 201%nat /\ resBody res = JsonTask d /\
    _id d = 7 /\ isCompleted d = false /\ createdAt d = 1738627200000%Z.
Proof.
  destruct (app_post_creates (mkWorld 0 true 1738627200000%Z 7 []) Absent
              (mkRaw (Casts "Buy milk"%string) Absent Absent Absent Absent)
              "Buy milk" eq_refl eq_refl ltac:(discriminate) eq_refl eq_refl eq_refl)
    as (res & d & w' & H1 & H2 & H3 & H4 & _ & _ & _ & H8 & H9 & _).
  exists res, d, w'. repeat split; assumption.
Defined.

(** C3, amended.  A PUT on an [:id] that is not the id of a stored Task
    never produces a 200 whose body is a Task record, and never a 404.  When
    the [:id] is well formed, the values of the body cast and the server
    answers, Mongoose reports the absence with [null] and the response is
    200 with a [null] body.  Otherwise the handler rejects: with
    [CastError] when the [:id] is malformed or a value does not cast, with
    [StoreUnavailable] when the server does not answer.  The collection is
    unchanged in every case. *)
Theorem app_put_absent_id (w : World) (id : string) (r : RawBody) :
  (forall i, castObjectId id = Some i -> findById i (tasks w) = None) ->
  tasks (snd (app_put id r w)) = tasks w /\
  match fst (app_put id r w) with
  | Resolved res =>
      status res = 200%nat /\ resBody res = JsonNull /\
      reachable w = true /\ is_Some (castObjectId id) /\ cast_fails r = false
  | Rejected e =>
      e = CastError /\ (castObjectId id = None \/ cast_fails r = true) \/
      e = StoreUnavailable /\ reachable w = false
  end /\
  (reachable w = true -> is_Some (castObjectId id) -> cast_fails r = false ->
   exists res w',
     app_put id r w = (Resolved res, w') /\
     status res = 200%nat /\ resBody res = JsonNull).
Proof.
  intros Habs.
  destruct (castObjectId id) as [i|] eqn:Hi;
    [destruct (cast_fails r) eqn:Hc|].
  - destruct (app_put_uncast id r w (or_intror Hc)) as (e & w' & -> & Ht & He).
    simpl. split; [done|]. split.
    + destruct He as [->|[-> ?]]; auto.
    + by intros _ _.
  - rewrite (app_put_casts id i r w Hi Hc).
    destruct (put_api_tasks_eq w i (cast_body r)) as (w' & Heq & Ht).
    rewrite Heq, (Habs i eq_refl) in *. simpl. rewrite Ht.
    rewrite update_first_absent by (by apply Habs).
    destruct (reachable w); simpl.
    + repeat split; try done. intros _ _ _. by eexists _, _.
    + split; [done|]. split; [by right|]. by intros.
  - destruct (app_put_uncast id r w (or_introl Hi)) as (e & w' & -> & Ht & He).
    simpl. split; [done|]. split.
    + destruct He as [->|[-> ?]]; auto.
    + intros _ [? ?]. done.
Qed.

Lemma app_put_absent_id_witness :
  exists res w',
    app_put "000000000000000000000007" (raw_of (title_body "X"))
      (mkWorld 1 true 0%Z 0 []) = (Resolved res, w') /\
    status res = 200%nat /\ resBody res = JsonNull.
Proof.
  refine (proj2 (proj2 (app_put_absent_id (mkWorld 1 true 0%Z 0 [])
                          "000000000000000000000007" (raw_of (title_body "X")) _))
                eq_refl _ eq_refl).
  - intros i _. reflexivity.
  - by eexists.
Defined.

(** C5, amended.  A PUT never alters the [createdAt] of a stored Task
    unless its body names [createdAt]: every Task is still there under its
    id, with the [createdAt] it had.  A PUT whose body names [createdAt]
    with a value that casts replaces the stored [createdAt] of the Task
    whose id is [:id], when the server answers and every value of the body
    casts; it replaces that of no other Task, and of none when the server
    does not answer, the [:id] is malformed or a value does not cast. *)
Theorem app_put_createdAt (w : World) (id : string) (r : RawBody)
    (i' : ObjectId) (d : TaskDoc) :
  findById i' (tasks w) = Some d ->
  exists d',
    findById i' (tasks (snd (app_put id r w))) = Some d' /\
    _id d' = _id d /\
    createdAt d' =
      match raw_createdAt r with
      | Casts c =>
          if reachable w && negb (cast_fails r)
             && bool_decide (castObjectId id = Some i')
          then c else createdAt d
      | _ => createdAt d
      end.
Proof.
  intros Hd.
  assert (forall x, match raw_createdAt r with
                    | Casts c => if x && false then c else createdAt d
                    | _ => createdAt d
                    end = createdAt d) as Hfalse.
  { intros x. rewrite andb_false_r. by destruct (raw_createdAt r). }
  destruct (castObjectId id) as [i|] eqn:Hi;
    [destruct (cast_fails r) eqn:Hc|].
  - destruct (app_put_uncast id r w (or_intror Hc)) as (e & w' & -> & Ht & _).
    exists d. simpl. rewrite Ht, andb_false_r. simpl.
    repeat split; [done|]. by destruct (raw_createdAt r).
  - rewrite (app_put_casts id i r w Hi Hc).
    destruct (put_api_tasks_eq w i (cast_body r)) as (w' & Heq & Ht).
    rewrite Heq. simpl. rewrite Ht, andb_true_r.
    destruct (reachable w); simpl; [|exists d; by destruct (raw_createdAt r)].
    destruct (decide (i' = i)) as [->|Hne].
    + exists (apply_update (cast_body r) d). split.
      * by apply findById_update_first.
      * rewrite bool_decide_eq_true_2 by done. simpl.
        by destruct (raw_createdAt r).
    + exists d. rewrite findById_update_first_ne by done.
      rewrite bool_decide_eq_false_2 by congruence.
      repeat split; [done|]. by destruct (raw_createdAt r).
  - destruct (app_put_uncast id r w (or_introl Hi)) as (e & w' & -> & Ht & _).
    exists d. simpl. rewrite Ht.
    rewrite ?bool_decide_eq_false_2 by done. by rewrite Hfalse.
Qed.

Lemma app_put_createdAt_witness :
  let d := mkTask 3 (Some "Buy milk"%string) None None false 10%Z in
  let w := mkWorld 1 true 50%Z 4 [d] in
  (exists d',
     findById 3 (tasks (snd (app_put "000000000000000000000003"
                                (raw_of (title_body "X")) w))) = Some d' /\
     createdAt d' = 10%Z) /\
  (exists d',
     findById 3 (tasks (snd (app_put "000000000000000000000003"
                                (mkRaw Absent Absent Absent Absent (Casts 99%Z)) w)))
       = Some d' /\
     createdAt d' = 99%Z).
Proof.
  intros d w. split.
  - destruct (app_put_createdAt w "000000000000000000000003"
                (raw_of (title_body "X")) 3 d eq_refl) as (d' & H1 & _ & H3).
    exists d'. split; [exact H1 | exact H3].
  - destruct (app_put_createdAt w "000000000000000000000003"
                (mkRaw Absent Absent Absent Absent (Casts 99%Z)) 3 d eq_refl)
      as (d' & H1 & _ & H3).
    exists d'. split; [exact H1 | exact H3].
Defined.

(** C7.  Starting from an empty store, after two POSTs that created the
    Tasks A and B (each answered 201 with its Task), a GET is answered with
    status 200 and an array that holds exactly A and B: a permutation of the
    two, which have different ids.  The clock may move between the
    requests. *)
Theorem get_after_two_posts (w0 w1 w2 : World) (gA gB : Given ObjectId)
    (rA rB : RawBody) (resA resB : Response) (t1 t2 : Date) :
  tasks w0 = [] ->
  app_post gA rA w0 = (Resolved resA, w1) ->
  app_post gB rB (set_now t1 w1) = (Resolved resB, w2) ->
  exists A B resG w3 l,
    status resA = 201%nat /\ resBody resA = JsonTask A /\
    status resB = 201%nat /\ resBody resB = JsonTask B /\
    get_api_tasks (set_now t2 w2) = (Resolved resG, w3) /\
    status resG = 200%nat /\ resBody resG = JsonTasks l /\
    l ≡ₚ [A; B] /\
    (forall x, x ∈ l <-> x = A \/ x = B) /\
    _id A <> _id B.
Proof.
  intros H0 HA HB.
  apply app_post_resolved in HA as (A & HsA & HbA & _ & _ & _ & HtA & _ & Hr1).
  apply app_post_resolved in HB as (B & HsB & HbB & _ & _ & HfB & HtB & _ & Hr2).
  simpl in HfB, HtB. rewrite HtA, H0 in HfB, HtB. simpl in HfB, HtB.
  destruct (get_api_tasks_eq (set_now t2 w2)) as (_ & _ & Hget).
  simpl in Hget. rewrite Hr2, HtB in Hget.
  destruct (get_api_tasks (set_now t2 w2)) as [resG w3]. simpl in Hget. subst resG.
  exists A, B, (res_json 200 (JsonTasks [A; B])), w3, [A; B].
  repeat split; try done.
  - rewrite !elem_of_cons, elem_of_nil. tauto.
  - rewrite !elem_of_cons, elem_of_nil. tauto.
  - intros Heq. unfold findById in HfB. simpl in HfB.
    rewrite Heq, N.eqb_refl in HfB. discriminate HfB.
Qed.

Lemma get_after_two_posts_witness :
  exists A B resG w3 l,
    get_api_tasks (set_now 30%Z
      (mkWorld 1 true 20%Z 2
         [mkTask 0 (Some "A"%string) None None false 10%Z;
          mkTask 1 (Some "B"%string) None None false 20%Z]))
      = (Resolved resG, w3) /\
    status resG = 200%nat /\ resBody resG = JsonTasks l /\
    l ≡ₚ [A; B] /\ title A = Some "A"%string /\ title B = Some "B"%string.
Proof.
  destruct (get_after_two_posts
              (mkWorld 0 true 10%Z 0 [])
              (mkWorld 1 true 10%Z 1 [mkTask 0 (Some "A"%string) None None false 10%Z])
              (mkWorld 1 true 20%Z 2
                 [mkTask 0 (Some "A"%string) None None false 10%Z;
                  mkTask 1 (Some "B"%string) None None false 20%Z])
              Absent Absent
              (raw_of (title_body "A")) (raw_of (title_body "B"))
              (mkResponse 201 (JsonTask (mkTask 0 (Some "A"%string) None None false 10%Z)))
              (mkResponse 201 (JsonTask (mkTask 1 (Some "B"%string) None None false 20%Z)))
              20%Z 30%Z eq_refl eq_refl eq_refl)
    as (A & B & resG & w3 & l & _ & HA & _ & HB & Hg & Hs & Hb & Hp & _).
  exists A, B, resG, w3, l.
  injection HA as <-. injection HB as <-.
  repeat split; assumption || reflexivity.
Defined.

(** C8 as stated fails for an [:id] that is not a well-formed ObjectId:
    the cast of "3" fails, Mongoose rejects the query, and the DELETE is not
    answered 204. *)
Lemma app_delete_malformed_id :
  let w := mkWorld 1 true 50%Z 4
             [mkTask 3 (Some "Buy milk"%string) None None false 10%Z] in
  castObjectId "3" = None /\
  fst (app_delete "3" w) = Rejected CastError /\
  tasks (snd (app_delete "3" w)) = tasks w.
Proof. repeat split. Qed.

(** C8, amended.  DELETE is idempotent.  Deleting an [:id] that is not the
    id of a stored Task leaves the collection as it is.  For a well-formed
    [:id], when the server answers, the response has status 204 and no body
    whether or not the id was there, and so has the response to a repeated
    DELETE; the ids of the store being distinct, no Task is left under the
    id and the second DELETE changes nothing more.  For a malformed [:id]
    the handler rejects and the collection is unchanged. *)
Theorem app_delete_idempotent (w : World) (id : string) :
  ((forall i, castObjectId id = Some i -> findById i (tasks w) = None) ->
     tasks (snd (app_delete id w)) = tasks w) /\
  (forall i, castObjectId id = Some i -> reachable w = true ->
     exists res1 w1 res2 w2,
       app_delete id w = (Resolved res1, w1) /\
       status res1 = 204%nat /\ resBody res1 = NoBody /\
       app_delete id w1 = (Resolved res2, w2) /\
       status res2 = 204%nat /\ resBody res2 = NoBody /\
       (NoDup (_id <$> tasks w) ->
          findById i (tasks w1) = None /\ tasks w2 = tasks w1)) /\
  (castObjectId id = None ->
     exists e, fst (app_delete id w) = Rejected e /\
               tasks (snd (app_delete id w)) = tasks w).
Proof.
  split; [|split].
  - intros Habs. destruct (castObjectId id) as [i|] eqn:Hi.
    + rewrite (app_delete_casts id i w Hi).
      destruct (delete_api_tasks_eq w i) as (w1 & -> & _ & Ht). simpl.
      rewrite Ht. destruct (reachable w); [|done].
      apply remove_first_absent. by apply Habs.
    + by destruct (app_delete_uncast id w Hi) as (e & w' & -> & Ht & _).
  - intros i Hi Hr.
    destruct (delete_api_tasks_eq w i) as (w1 & H1 & Hr1 & Ht1).
    destruct (delete_api_tasks_eq w1 i) as (w2 & H2 & Hr2 & Ht2).
    rewrite Hr in *. rewrite Hr1 in *.
    exists (res_send 204), w1, (res_send 204), w2.
    rewrite !(app_delete_casts id i) by done.
    repeat split; try done.
    + rewrite Ht1. by apply findById_remove_first.
    + rewrite Ht2. apply remove_first_absent.
      rewrite Ht1. by apply findById_remove_first.
  - intros Hi. destruct (app_delete_uncast id w Hi) as (e & w' & -> & Ht & _).
    by exists e.
Qed.

Lemma app_delete_idempotent_witness :
  let d := mkTask 3 (Some "Buy milk"%string) None None false 10%Z in
  let w := mkWorld 1 true 50%Z 4 [d] in
  tasks (snd (app_delete "000000000000000000000009" w)) = [d] /\
  (exists res1 w1 res2 w2,
     app_delete "000000000000000000000003" w = (Resolved res1, w1) /\
     status res1 = 204%nat /\ resBody res1 = NoBody /\
     app_delete "000000000000000000000003" w1 = (Resolved res2, w2) /\
     status res2 = 204%nat /\ resBody res2 = NoBody).
Proof.
  intros d w. split.
  - apply (proj1 (app_delete_idempotent w "000000000000000000000009")).
    intros i [= <-]. reflexivity.
  - destruct (proj1 (proj2 (app_delete_idempotent w "000000000000000000000003"))
                3 eq_refl eq_refl)
      as (res1 & w1 & res2 & w2 & H1 & H2 & H3 & H4 & H5 & H6 & _).
    exists res1, w1, res2, w2. repeat split; assumption.
Defined.

(** X1. [connectDB] is lazy (lines 16-22): calling it again right after a
    first call changes nothing more, whether the first call connected or
    failed to.  When it resolves the connection is up; when it rejects, it
    is with [StoreUnavailable], the server did not answer and the connection
    is down, so that the next request tries to connect again.  It never
    touches the collection, the generator, the clock or the network. *)
Theorem connectDB_idempotent (w : World) :
  await connectDB (fun _ => connectDB) w = connectDB w /\
  (forall w1, connectDB w = (Resolved tt, w1) -> (1 <= readyState w1)%nat) /\
  (forall e w1, connectDB w = (Rejected e, w1) ->
     e = StoreUnavailable /\ reachable w = false /\
     readyState w = 0%nat /\ readyState w1 = 0%nat) /\
  tasks (snd (connectDB w)) = tasks w /\
  nextId (snd (connectDB w)) = nextId w /\
  now (snd (connectDB w)) = now w /\
  reachable (snd (connectDB w)) = reachable w.
Proof.
  open_world w; unfold connectDB, mongoose_connect; unfold_async; simpl.
  all: destruct rch; simpl; (split; [done|]); (split; [|split; [|done]]).
  all: try (intros w1 [= <-]; simpl; lia).
  all: try (intros e w1 [= <- <-]; by simpl).
  all: by intros.
Qed.

(** X4. When the server does not answer, every request is rejected and
    writes nothing, whatever its [:id] and body: the collection is as
    before.  The failure is [StoreUnavailable], and the connection is then
    down, unless the request fails before the server is needed, over a
    connection that was up: a POST that fails validation, or a PUT or DELETE
    whose [:id] or values do not cast. *)
Theorem unreachable_rejects (r : RawRequest) (w : World) :
  reachable w = false ->
  exists e,
    fst (app r w) = Rejected e /\
    tasks (snd (app r w)) = tasks w /\
    (e = StoreUnavailable /\ readyState (snd (app r w)) = 0%nat \/
     (e = ValidationError \/ e = CastError) /\ (1 <= readyState w)%nat).
Proof.
  intros Hr. destruct r as [gid b| |id b|id].
  - destruct gid as [|i|]; open_world w; run_app.
    all: destruct (cast_fails b); simpl.
    all: try destruct (required_string _); simpl.
    all: eexists; split; [reflexivity|]; split; [reflexivity|]; simpl.
    all: try (left; by split); right; repeat split; auto; lia.
  - open_world w; run_app.
    all: eexists; split; [reflexivity|]; split; [reflexivity|]; left; by split.
  - open_world w; run_app.
    all: try (destruct (castObjectId id); [destruct (cast_fails b)|]); simpl.
    all: eexists; split; [reflexivity|]; split; [reflexivity|]; simpl.
    all: try (left; by split); right; repeat split; auto; lia.
  - open_world w; run_app.
    all: try (destruct (castObjectId id)); simpl.
    all: eexists; split; [reflexivity|]; split; [reflexivity|]; simpl.
    all: try (left; by split); right; repeat split; auto; lia.
Qed.

Lemma unreachable_rejects_witness :
  exists e,
    fst (app (RawDELETE "000000000000000000000003")
           (mkWorld 1 false 0%Z 4 [mkTask 3 (Some "Buy milk"%string) None None false 0%Z]))
      = Rejected e /\
    tasks (snd (app (RawDELETE "000000000000000000000003")
           (mkWorld 1 false 0%Z 4 [mkTask 3 (Some "Buy milk"%string) None None false 0%Z])))
      = [mkTask 3 (Some "Buy milk"%string) None None false 0%Z].
Proof.
  destruct (unreachable_rejects (RawDELETE "000000000000000000000003")
              (mkWorld 1 false 0%Z 4 [mkTask 3 (Some "Buy milk"%string) None None false 0%Z])
              eq_refl) as (e & H1 & H2 & _).
  exists e. split; [exact H1 | exact H2].
Defined.

(** X9. PUT is idempotent on bodies that give paths of the schema, whether
    or not the [:id] and the values cast: repeating the request gives the
    same response, or the same rejection, and leaves the collection as the
    first request left it. *)
Theorem app_put_idempotent (w : World) (id : string) (r : RawBody) :
  let w1 := snd (app_put id r w) in
  fst (app_put id r w1) = fst (app_put id r w) /\
  tasks (snd (app_put id r w1)) = tasks w1.
Proof.
  intros w1. subst w1.
  destruct (castObjectId id) as [i|] eqn:Hi;
    [destruct (cast_fails r) eqn:Hc|].
  - open_world w; run_app; rewrite Hi, Hc; try done.
    all: destruct rch; simpl; by rewrite ?Hi, ?Hc.
  - rewrite !(app_put_casts id i r) by done.
    apply put_api_tasks_idempotent.
  - open_world w; run_app; rewrite Hi; try done.
    all: destruct rch; simpl; by rewrite ?Hi.
Qed.
